(** * Recipe book processor: a shallow embedding of [recipe_processor.py]

    The development follows the source file top to bottom:

    - Python strings and the three [str] operations the program uses
      ([in], [lower], [replace]);
    - Python dictionaries as insertion-ordered association lists;
    - [LookupMatcher.find_match];
    - [RecipeProcessor.calculate_recipe_costs], in a small monad that
      threads the log of calls to the builtin [eval] and the exceptions
      a [try] body can raise;
    - [get_temperature], [get_duration_lookup], [calculate_energy_flags];
    - [generate_summary] and the CSV rendering of [save_to_csv].

    Modelling choices.  Text is ASCII ([lower] folds [A-Z] only).  Numeric
    cells are Python integers, or the float [nan] that the program uses as
    its missing-value marker: integer arithmetic and comparison are exact,
    and every comparison with [nan] is false.  The builtin [eval], the two
    tables of [lookups.py] and the number formatting of pandas are not
    part of the program and are taken as parameters.  [eval] is a function
    from the text it receives to a number or an exception; the exception
    may be one that [except Exception] does not catch.  An evaluated text
    that reads or changes the variables of the running method has no
    counterpart here; where two runs are compared, each has its own
    [eval].  One formatting function stands for the way pandas writes a
    number that is not missing; no statement depends on the text it
    gives. *)

From Stdlib Require Import List String Ascii ZArith Bool Lia.
From Stdlib Require Import Numbers.DecimalString.
Import ListNotations.

Local Open Scope string_scope.
Local Open Scope list_scope.

(* ================================================================= *)
(** ** Python strings *)

Module PyStr.

(** [lower_ascii c]: one character of [str.lower] on ASCII text. *)
Definition lower_ascii (c : ascii) : ascii :=
  let n := nat_of_ascii c in
  if (65 <=? n)%nat && (n <=? 90)%nat then ascii_of_nat (n + 32) else c.

(** [s.lower()] *)
Fixpoint lower (s : string) : string :=
  match s with
  | EmptyString => EmptyString
  | String c s' => String (lower_ascii c) (lower s')
  end.

(** [sub in s]: [sub] occurs in [s] as a contiguous block. *)
Fixpoint contains (sub s : string) : bool :=
  String.prefix sub s ||
  match s with
  | EmptyString => false
  | String _ s' => contains sub s'
  end.

(** [new.join(...)] for the empty pattern of [replace]: [new] goes in
    front of every character and once more at the end. *)
Fixpoint intersperse (new s : string) : string :=
  match s with
  | EmptyString => new
  | String c s' => new ++ String c (intersperse new s')
  end.

(** The scan of [s.replace(old, new)] for a non-empty [old]: left to
    right, occurrences do not overlap.  [skip] counts the characters of an
    occurrence already replaced that are still to be passed over. *)
Fixpoint replace_scan (old new : string) (skip : nat) (s : string) : string :=
  match s with
  | EmptyString => EmptyString
  | String c s' =>
      match skip with
      | S k => replace_scan old new k s'
      | O =>
          if String.prefix old s
          then new ++ replace_scan old new (String.length old - 1) s'
          else String c (replace_scan old new 0 s')
      end
  end.

(** [s.replace(old, new)] *)
Definition replace (old new s : string) : string :=
  match old with
  | EmptyString => intersperse new s
  | String _ _ => replace_scan old new 0 s
  end.

(** [s] without its first [n] characters, [s[n:]]. *)
Fixpoint drop (n : nat) (s : string) : string :=
  match n, s with
  | O, _ => s
  | S _, EmptyString => EmptyString
  | S k, String _ s' => drop k s'
  end.

End PyStr.

(* ================================================================= *)
(** ** Python dictionaries

    A [dict] keeps its keys in insertion order and iterates in that order;
    assigning to a key already present changes the value in place.  The
    program depends on the order twice (the scan of [find_match] and the
    substitution loop), so a dictionary is an association list. *)

Module PyDict.

Section Dict.
Context {V : Type}.

Definition dict := list (string * V).

(** [d.get(k)] as an option; [None] is the [KeyError] case of [d[k]]. *)
Fixpoint get (d : dict) (k : string) : option V :=
  match d with
  | [] => None
  | (k', v) :: d' => if String.eqb k k' then Some v else get d' k
  end.

(** [k in d] *)
Definition mem (k : string) (d : dict) : bool :=
  match get d k with Some _ => true | None => false end.

(** [d[k] = v] *)
Fixpoint set (d : dict) (k : string) (v : V) : dict :=
  match d with
  | [] => [(k, v)]
  | (k', v') :: d' =>
      if String.eqb k k' then (k', v) :: d' else (k', v') :: set d' k v
  end.

(** [list(d)], [d.keys()] *)
Definition keys (d : dict) : list string := map fst d.

(** [d.values()] *)
Definition values (d : dict) : list V := map snd d.

(** [d.get(k, default)] *)
Definition get_default (d : dict) (k : string) (default : V) : V :=
  match get d k with Some v => v | None => default end.

End Dict.

Arguments dict V : clear implicits.

(** [dict(zip(ks, vs))] on the rows of a two-column table. *)
Definition of_pairs {V : Type} (rows : list (string * V)) : dict V :=
  fold_left (fun d kv => set d (fst kv) (snd kv)) rows [].

End PyDict.

Import PyStr PyDict.

(* ================================================================= *)
(** ** LookupMatcher *)

Module LookupMatcher.

(** The test of the substring scan, for the lowered query [key_lower]
    and one key of the table. *)
Definition substring_hit (key_lower lookup_key : string) : bool :=
  contains key_lower (lower lookup_key) || contains (lower lookup_key) key_lower.

(** [LookupMatcher.find_match(key, lookup_dict)]; [None] is Python's
    [None]. *)
Definition find_match {V : Type} (key : string) (lookup_dict : dict V)
  : option string :=
  if mem key lookup_dict then Some key
  else
    let key_lower := lower key in
    find (substring_hit key_lower) (keys lookup_dict).

End LookupMatcher.

(* ================================================================= *)
(** ** Numbers *)

(** A numeric cell: a Python integer, or [float('nan')]. *)
Inductive num : Type :=
| Int (z : Z)
| NaN.

Module Num.

(** [str(x)] *)
Definition str (x : num) : string :=
  match x with
  | Int z => NilZero.string_of_int (Z.to_int z)
  | NaN => "nan"
  end.

(** [x * y]; [nan] is absorbing. *)
Definition mul (x y : num) : num :=
  match x, y with
  | Int a, Int b => Int (a * b)
  | _, _ => NaN
  end.

(** [x > y]; false as soon as one side is [nan]. *)
Definition gt (x y : num) : bool :=
  match x, y with
  | Int a, Int b => Z.gtb a b
  | _, _ => false
  end.

(** [x == y]; [nan == nan] is false. *)
Definition eq (x y : num) : bool :=
  match x, y with
  | Int a, Int b => Z.eqb a b
  | _, _ => false
  end.

(** [Series.round(ndigits)] on a cell; integers and [nan] are unchanged. *)
Definition round (ndigits : nat) (x : num) : num := x.

End Num.

(* ================================================================= *)
(** ** Exceptions and the evaluation log *)

(** The exceptions of the model.  The first three derive from
    [Exception]; [SystemExit] derives from [BaseException] only, like
    [KeyboardInterrupt], and is what a call of [exit()] raises. *)
Inductive exn : Type :=
| EvalError   (** an [Exception] raised by [eval]: [SyntaxError], [ZeroDivisionError], [NameError], ... *)
| KeyError
| ValueError
| SystemExit.

Inductive result (A : Type) : Type :=
| Ok (a : A)
| Raise (e : exn).

Arguments Ok {A} a.
Arguments Raise {A} e.

Module Res.

Definition bind {A B : Type} (r : result A) (k : A -> result B) : result B :=
  match r with
  | Ok a => k a
  | Raise e => Raise e
  end.

(** [try: body / except <class>: handler], [catches] telling which
    exceptions the clause names. *)
Definition try_except {A : Type} (body : result A) (catches : exn -> bool)
  (handler : exn -> result A) : result A :=
  match body with
  | Ok a => Ok a
  | Raise e => if catches e then handler e else Raise e
  end.

(** [d[k]] *)
Definition index {V : Type} (d : dict V) (k : string) : result V :=
  match get d k with
  | Some v => Ok v
  | None => Raise KeyError
  end.

End Res.

(** [except Exception]: every class but those that derive from
    [BaseException] only. *)
Definition is_Exception (e : exn) : bool :=
  match e with
  | SystemExit => false
  | _ => true
  end.

(** [except KeyError] *)
Definition is_KeyError (e : exn) : bool :=
  match e with KeyError => true | _ => false end.

(** A computation that may call [eval]: the strings handed to [eval], in
    call order, and the outcome. *)
Definition M (A : Type) : Type := (list string * result A)%type.

Module Mon.

Definition ret {A : Type} (a : A) : M A := ([], Ok a).

Definition lift {A : Type} (r : result A) : M A := ([], r).

Definition bind {A B : Type} (m : M A) (k : A -> M B) : M B :=
  match m with
  | (log, Ok a) => let (log', r) := k a in (log ++ log', r)
  | (log, Raise e) => (log, Raise e)
  end.

Definition try_except {A : Type} (body : M A) (catches : exn -> bool)
  (handler : exn -> M A) : M A :=
  match body with
  | (log, Ok a) => (log, Ok a)
  | (log, Raise e) =>
      if catches e then let (log', r) := handler e in (log ++ log', r)
      else (log, Raise e)
  end.

(** The strings handed to [eval] by a computation. *)
Definition evaluated {A : Type} (m : M A) : list string := fst m.

(** The outcome of a computation. *)
Definition outcome {A : Type} (m : M A) : result A := snd m.

End Mon.

Notation "x <- c ;; k" := (Mon.bind c (fun x => k))
  (at level 61, c at next level, right associativity).

(* ================================================================= *)
(** ** The sheets of the workbook *)

Module Dish.
Record row : Type := Build
  { dish : string; recipe_cost : string; temperature : string; duration : string }.
End Dish.

Module DishIngredient.
Record row : Type := Build
  { dish : string; ingredient : string; ingredient_map : string }.
End DishIngredient.

Module IngredientCost.
Record row : Type := Build
  { ingredient : string; cost : num }.
End IngredientCost.

Module Summary.
Record row : Type := Build
  { dish : string;
    recipe_cash_cost : num;
    temp_degC : num;
    time_mins : num;
    most_energy : bool }.
End Summary.

(* ================================================================= *)
(** ** RecipeProcessor *)

Module RecipeProcessor.

Section Processor.

(** The builtin [eval]: the value of an expression, or the exception it
    raises. *)
Variable py_eval : string -> result num.

(** [self.temperature_lookup] and [self.duration_lookup], the two
    tables imported from [lookups.py]. *)
Variable temperature_lookup : dict num.
Variable duration_lookup : dict num.

(** *** calculate_recipe_costs *)

(** [cost_lookup = dict(zip(df['ingredient'], df['cost']))] *)
Definition make_cost_lookup (ingredient_cost_df : list IngredientCost.row)
  : dict num :=
  of_pairs
    (map (fun r => (IngredientCost.ingredient r, IngredientCost.cost r))
       ingredient_cost_df).

(** One turn of the first loop: the row's variable is bound to the cost
    of its ingredient, or to [nan] when the ingredient has no cost. *)
Definition add_ingredient (cost_lookup : dict num)
  (dish_ingredients : dict (dict num)) (row : DishIngredient.row)
  : dict (dict num) :=
  let dish := DishIngredient.dish row in
  let ingredient := DishIngredient.ingredient row in
  let mapping := DishIngredient.ingredient_map row in
  let dish_ingredients :=
    if mem dish dish_ingredients then dish_ingredients
    else set dish_ingredients dish [] in
  let inner := get_default dish_ingredients dish [] in
  if mem ingredient cost_lookup
  then set dish_ingredients dish
         (set inner mapping (get_default cost_lookup ingredient NaN))
  else set dish_ingredients dish (set inner mapping NaN).

(** The first loop, over the rows of the dish_ingredient sheet. *)
Definition build_dish_ingredients (cost_lookup : dict num)
  (dish_ingredient_df : list DishIngredient.row) : dict (dict num) :=
  fold_left (add_ingredient cost_lookup) dish_ingredient_df [].

(** The substitution loop: [formula_eval = formula_eval.replace(var,
    str(cost))] for each item of [ingredients], in dictionary order. *)
Definition substitute (formula : string) (ingredients : dict num) : string :=
  fold_left (fun formula_eval vc => replace (fst vc) (Num.str (snd vc)) formula_eval)
    ingredients formula.

(** A call of [eval], recorded in the log. *)
Definition call_eval (s : string) : M num := ([s], py_eval s).

(** The [try] statement of the second loop: the cost of one dish. *)
Definition formula_cost (formula : string) (ingredients : dict num) : M num :=
  Mon.try_except
    (let formula_eval := substitute formula ingredients in
     if contains "nan" formula_eval then Mon.ret NaN
     else call_eval formula_eval)
    is_Exception
    (fun _ => Mon.ret NaN).

(** The second loop, over the rows of the dish sheet. *)
Fixpoint cost_loop (dish_ingredients : dict (dict num))
  (dish_df : list Dish.row) (recipe_costs : dict num) : M (dict num) :=
  match dish_df with
  | [] => Mon.ret recipe_costs
  | row :: rest =>
      let dish := Dish.dish row in
      let formula := Dish.recipe_cost row in
      let ingredients := get_default dish_ingredients dish [] in
      c <- formula_cost formula ingredients ;;
      cost_loop dish_ingredients rest (set recipe_costs dish c)
  end.

(** [calculate_recipe_costs]; the result is [self.recipe_costs]. *)
Definition calculate_recipe_costs (dish_df : list Dish.row)
  (dish_ingredient_df : list DishIngredient.row)
  (ingredient_cost_df : list IngredientCost.row) : M (dict num) :=
  let cost_lookup := make_cost_lookup ingredient_cost_df in
  let dish_ingredients := build_dish_ingredients cost_lookup dish_ingredient_df in
  cost_loop dish_ingredients dish_df [].

(** *** get_temperature, get_duration_lookup *)

(** [if matched_key:] an empty string is falsy, like [None]. *)
Definition truthy (matched_key : option string) : bool :=
  match matched_key with
  | Some (String _ _) => true
  | _ => false
  end.

Definition get_temperature (temp_key : string) : result num :=
  let matched_key := LookupMatcher.find_match temp_key temperature_lookup in
  if truthy matched_key
  then match matched_key with
       | Some k => Res.index temperature_lookup k
       | None => Ok NaN
       end
  else Ok NaN.

Definition get_duration_lookup (duration_key : string) : result num :=
  Res.try_except (Res.index duration_lookup duration_key)
    is_KeyError
    (fun _ => Ok NaN).

(** *** calculate_energy_flags *)

(** The builtin [max] on a non-empty sequence: the running maximum is
    replaced only by an item that compares greater. *)
Definition max_from (first : num) (rest : list num) : num :=
  fold_left (fun maxitem item => if Num.gt item maxitem then item else maxitem)
    rest first.

(** [max(xs)]; [ValueError] on an empty sequence. *)
Definition py_max (xs : list num) : result num :=
  match xs with
  | [] => Raise ValueError
  | x :: rest => Ok (max_from x rest)
  end.

(** The loop filling [energies]. *)
Fixpoint energy_loop (dish_df : list Dish.row) (energies : dict num)
  : result (dict num) :=
  match dish_df with
  | [] => Ok energies
  | row :: rest =>
      let dish := Dish.dish row in
      Res.bind (get_temperature (Dish.temperature row)) (fun temp_degC =>
      Res.bind (get_duration_lookup (Dish.duration row)) (fun time_mins =>
      let energy := Num.mul temp_degC time_mins in
      energy_loop rest (set energies dish energy)))
  end.

(** [{dish: (energy == max_energy) for dish, energy in energies.items()}] *)
Definition flags_of (energies : dict num) (max_energy : num) : dict bool :=
  of_pairs (map (fun de => (fst de, Num.eq (snd de) max_energy)) energies).

(** [calculate_energy_flags]; the result is the pair
    [(self.energies, self.most_energy_flags)]. *)
Definition calculate_energy_flags (dish_df : list Dish.row)
  : result (dict num * dict bool) :=
  Res.bind (energy_loop dish_df []) (fun energies =>
  Res.bind (py_max (values energies)) (fun max_energy =>
  Ok (energies, flags_of energies max_energy))).

(** *** generate_summary, save_to_csv *)

(** The body of the loop of [generate_summary]. *)
Definition summary_row (recipe_costs : dict num) (most_energy_flags : dict bool)
  (row : Dish.row) : result Summary.row :=
  let dish := Dish.dish row in
  let recipe_cash_cost := get_default recipe_costs dish NaN in
  Res.bind (get_temperature (Dish.temperature row)) (fun temp_degC =>
  Res.bind (get_duration_lookup (Dish.duration row)) (fun time_mins =>
  let most_energy := get_default most_energy_flags dish false in
  Ok (Summary.Build dish recipe_cash_cost temp_degC time_mins most_energy))).

Fixpoint generate_summary (recipe_costs : dict num)
  (most_energy_flags : dict bool) (dish_df : list Dish.row)
  : result (list Summary.row) :=
  match dish_df with
  | [] => Ok []
  | row :: rest =>
      Res.bind (summary_row recipe_costs most_energy_flags row) (fun r =>
      Res.bind (generate_summary recipe_costs most_energy_flags rest) (fun rs =>
      Ok (r :: rs)))
  end.

(** How pandas writes a number that is not missing. *)
Variable format_number : Z -> string.

(** A numeric cell of the CSV, under [na_rep='NaN']. *)
Definition csv_num (x : num) : string :=
  match x with
  | Int z => format_number z
  | NaN => "NaN"
  end.

Definition csv_bool (b : bool) : string := if b then "True" else "False".

Definition csv_header : list string :=
  ["dish"; "recipe_cash_cost"; "temp_degC"; "time_mins"; "most_energy"].

(** [summary_df['recipe_cash_cost'] = summary_df['recipe_cash_cost'].round(2)].
    A frame built from an empty list of rows has no columns, and
    selecting one raises [KeyError]. *)
Definition round_cost_column (summary_df : list Summary.row)
  : result (list Summary.row) :=
  match summary_df with
  | [] => Raise KeyError
  | _ :: _ =>
      Ok (map
            (fun r =>
               Summary.Build (Summary.dish r)
                 (Num.round 2 (Summary.recipe_cash_cost r))
                 (Summary.temp_degC r) (Summary.time_mins r)
                 (Summary.most_energy r))
            summary_df)
  end.

(** One line of the CSV. *)
Definition csv_line (r : Summary.row) : list string :=
  [ Summary.dish r;
    csv_num (Summary.recipe_cash_cost r);
    csv_num (Summary.temp_degC r);
    csv_num (Summary.time_mins r);
    csv_bool (Summary.most_energy r) ].

(** [to_csv(output_file, index=False, na_rep='NaN')]: the header, then
    one line per row. *)
Definition to_csv (summary_df : list Summary.row) : list (list string) :=
  csv_header :: map csv_line summary_df.

(** [save_to_csv]: the lines written; [None] on a dry run, which writes
    nothing.  The handler logs and raises again. *)
Definition save_to_csv (dry_run : bool) (recipe_costs : dict num)
  (most_energy_flags : dict bool) (dish_df : list Dish.row)
  : result (option (list (list string))) :=
  if dry_run then Ok None
  else
    Res.try_except
      (Res.bind (generate_summary recipe_costs most_energy_flags dish_df)
         (fun summary_df =>
       Res.bind (round_cost_column summary_df) (fun summary_df =>
       Ok (Some (to_csv summary_df)))))
      is_Exception
      (fun e => Raise e).

(** *** process *)

(** [process], after the sheets are loaded: the summary returned and the
    lines written. *)
Definition process (dry_run : bool) (dish_df : list Dish.row)
  (dish_ingredient_df : list DishIngredient.row)
  (ingredient_cost_df : list IngredientCost.row)
  : M (list Summary.row * option (list (list string))) :=
  recipe_costs <- calculate_recipe_costs dish_df dish_ingredient_df
                    ingredient_cost_df ;;
  ef <- Mon.lift (calculate_energy_flags dish_df) ;;
  summary_df <- Mon.lift (generate_summary recipe_costs (snd ef) dish_df) ;;
  written <- Mon.lift (save_to_csv dry_run recipe_costs (snd ef) dish_df) ;;
  Mon.ret (summary_df, written).

End Processor.

End RecipeProcessor.

(** [main], once the arguments are parsed and the sheets are loaded:
    [--execute] or [--dry-run] runs [process] with [dry_run] as given;
    with neither flag only the help is printed, which is [None] here. *)
Definition main (py_eval : string -> result num)
  (temperature_lookup duration_lookup : dict num)
  (format_number : Z -> string) (execute dry_run : bool)
  (dish_df : list Dish.row) (dish_ingredient_df : list DishIngredient.row)
  (ingredient_cost_df : list IngredientCost.row)
  : option (M (list Summary.row * option (list (list string)))) :=
  if execute || dry_run
  then Some (RecipeProcessor.process py_eval temperature_lookup
               duration_lookup format_number dry_run dish_df
               dish_ingredient_df ingredient_cost_df)
  else None.

Import LookupMatcher RecipeProcessor.

(* ================================================================= *)
(** * Specification-side notions *)

(** [sub] occurs in [s]: the meaning of Python's [sub in s]. *)
Definition substring (sub s : string) : Prop :=
  exists pre post, s = (pre ++ sub ++ post)%string.

(** [t] is [s] with the occurrences of a non-empty [old] replaced by
    [new], found left to right and not overlapping: what the Python
    manual says of [str.replace]. *)
Inductive replaced (old new : string) : string -> string -> Prop :=
| replaced_end : replaced old new "" ""
| replaced_hit s t :
    replaced old new s t ->
    replaced old new (old ++ s)%string (new ++ t)%string
| replaced_miss c s t :
    String.prefix old (String c s) = false ->
    replaced old new s t ->
    replaced old new (String c s) (String c t).

(** [k] is the first element of [l] that satisfies [P]. *)
Definition first_such {A : Type} (P : A -> Prop) (l : list A) (k : A) : Prop :=
  exists before after,
    l = before ++ k :: after /\ P k /\
    forall k', In k' before -> ~ P k'.

(** The test of the substring scan of [find_match], as the
    specification words it. *)
Definition matches (key lookup_key : string) : Prop :=
  substring (lower key) (lower lookup_key) \/
  substring (lower lookup_key) (lower key).

(** The character set the specification allows in a string handed to
    the evaluator: digits, [.], the four operators, parentheses, space. *)
Definition allowed_char (c : ascii) : bool :=
  let n := nat_of_ascii c in
  ((48 <=? n)%nat && (n <=? 57)%nat) ||
  existsb (Ascii.eqb c) ["."; "+"; "-"; "*"; "/"; "("; ")"; " "]%char.

Fixpoint all_allowed (s : string) : bool :=
  match s with
  | EmptyString => true
  | String c s' => allowed_char c && all_allowed s'
  end.


(** The outcome of the [try] statement for a dish: [nan] when the
    substituted text contains [nan] or [eval] raises an exception of
    class [Exception], the value of [eval] when it returns, and the
    exception itself when it is not of class [Exception]. *)
Definition cost_outcome (py_eval : string -> result num) (formula : string)
  (ingredients : dict num) : result num :=
  let formula_eval := substitute formula ingredients in
  if contains "nan" formula_eval then Ok NaN
  else match py_eval formula_eval with
       | Ok v => Ok v
       | Raise e => if is_Exception e then Ok NaN else Raise e
       end.


(** The text the second loop builds for a dish row. *)
Definition dish_text (dish_ingredients : dict (dict num)) (row : Dish.row)
  : string :=
  substitute (Dish.recipe_cost row)
    (get_default dish_ingredients (Dish.dish row) []).

(** [t] is [s] with [new] in front of every character and at the end:
    what [str.replace] does for the empty pattern. *)
Inductive interleaved (new : string) : string -> string -> Prop :=
| interleaved_end : interleaved new "" new
| interleaved_step c s t :
    interleaved new s t ->
    interleaved new (String c s) (new ++ String c t)%string.

(** The value an ingredient id resolves to in the first loop. *)
Definition resolve (cost_lookup : dict num) (ingredient : string) : num :=
  match get cost_lookup ingredient with
  | Some c => c
  | None => NaN
  end.

(** The temperature, duration and energy the program computes for a
    dish row, read off [get_temperature], [get_duration_lookup] and the
    loop of [calculate_energy_flags]. *)
Definition temperature_of (temperature_lookup : dict num) (temp_key : string)
  : num :=
  match find_match temp_key temperature_lookup with
  | Some (String c k) => get_default temperature_lookup (String c k) NaN
  | _ => NaN
  end.

Definition duration_of (duration_lookup : dict num) (duration_key : string)
  : num :=
  get_default duration_lookup duration_key NaN.

Definition energy_of (temperature_lookup duration_lookup : dict num)
  (row : Dish.row) : num :=
  Num.mul (temperature_of temperature_lookup (Dish.temperature row))
    (duration_of duration_lookup (Dish.duration row)).

(** The greatest of the defined numbers of a list, if there is one. *)
Fixpoint defined_max (xs : list num) : option Z :=
  match xs with
  | [] => None
  | NaN :: rest => defined_max rest
  | Int z :: rest =>
      match defined_max rest with
      | None => Some z
      | Some m => Some (Z.max z m)
      end
  end.

(** The flag the specification gives an energy: it is defined and equal
    to the greatest defined energy. *)
Definition is_greatest (energies : list num) (energy : num) : bool :=
  match energy, defined_max energies with
  | Int e, Some m => Z.eqb e m
  | _, _ => false
  end.




(** Sample inputs, used to run the program on concrete data. *)
Module Sample.

(** An evaluator that agrees with Python on the expressions listed and
    raises on every other string. *)
Definition table_eval (s : string) : result num :=
  match get [("2+1", Int 3); ("2+3", Int 5); ("11+1", Int 12); ("7", Int 7)] s with
  | Some v => Ok v
  | None => Raise EvalError
  end.


(** The evaluator of a dry run: like [table_eval], but for a text that
    reads [self.dry_run]. *)
Definition dry_eval (s : string) : result num :=
  if String.eqb s "self.dry_run*1" then Ok (Int 1) else table_eval s.


Definition temperature_lookup : dict num :=
  [("low", Int 100); ("high", Int 200)].

Definition duration_lookup : dict num :=
  [("short", Int 10); ("long", Int 20)].

Definition decimal (z : Z) : string := Num.str (Int z).

(** Three dishes; the duration key of the first is not in the table. *)
Definition dishes : list Dish.row :=
  [ Dish.Build "soup" "A+B" "low" "overnight";
    Dish.Build "bread" "A+1" "LOW heat" "short";
    Dish.Build "roast" "1/0" "high" "long" ].

Definition dish_ingredients : list DishIngredient.row :=
  [ DishIngredient.Build "soup" "leek" "A";
    DishIngredient.Build "soup" "saffron" "B";
    DishIngredient.Build "bread" "flour" "A";
    DishIngredient.Build "bread" "saffron" "B" ].

Definition ingredient_costs : list IngredientCost.row :=
  [ IngredientCost.Build "leek" (Int 2);
    IngredientCost.Build "flour" (Int 2) ].

End Sample.

(* ================================================================= *)
(** * Strings *)

Section StringFacts.

Lemma prefix_iff (p s : string) :
  String.prefix p s = true <-> exists post, s = (p ++ post)%string.
Proof.
  revert s; induction p as [|c p IH]; intros s.
  - split; [intros _; now exists s | now destruct s].
  - destruct s as [|d s]; simpl.
    + split; [discriminate | intros [post H]; discriminate H].
    + destruct (Ascii.ascii_dec c d) as [->|ne].
      * rewrite IH. split; intros [post H]; exists post.
        -- now rewrite H.
        -- now inversion H.
      * split; [discriminate | intros [post H]; simpl in H; congruence].
Qed.

Lemma append_empty_r (a : string) : (a ++ "" = a)%string.
Proof. induction a as [|x a IH]; simpl; [reflexivity | now rewrite IH]. Qed.

(** The boolean test computes the relation. *)
Lemma contains_iff (sub s : string) :
  contains sub s = true <-> substring sub s.
Proof.
  unfold substring. induction s as [|c s IH].
  - cbn [contains]. rewrite orb_false_r, prefix_iff. split.
    + intros [post H]. now exists "", post.
    + intros [pre [post H]]. destruct pre; [now exists post | discriminate H].
  - cbn [contains]. rewrite orb_true_iff, prefix_iff, IH. split.
    + intros [[post H] | [pre [post H]]].
      * now exists "", post.
      * exists (String c pre), post. simpl. now rewrite H.
    + intros [pre [post H]]. destruct pre as [|d pre].
      * left. now exists post.
      * right. simpl in H. inversion H. now exists pre, post.
Qed.

Lemma substring_refl (s : string) : substring s s.
Proof. exists "", "". simpl. now rewrite append_empty_r. Qed.

Lemma substring_empty (s : string) : substring "" s.
Proof. now exists "", s. Qed.

End StringFacts.

(* ================================================================= *)
(** * Dictionaries *)

Section DictFacts.

Context {V : Type}.
Implicit Types (d : dict V) (k : string) (v : V).

Lemma mem_iff_In k d : mem k d = true <-> In k (keys d).
Proof.
  unfold mem, keys. induction d as [|[k' v'] d IH]; simpl.
  - split; [discriminate | tauto].
  - destruct (String.eqb_spec k k') as [->|ne].
    + split; auto.
    + rewrite IH. split; [auto | intros [e|i]; [congruence | assumption]].
Qed.

Lemma mem_false_iff k d : mem k d = false <-> ~ In k (keys d).
Proof. rewrite <- mem_iff_In. destruct (mem k d); split; congruence. Qed.


Lemma get_set_same d k v : get (set d k v) k = Some v.
Proof.
  induction d as [|[k' v'] d IH]; simpl.
  - now rewrite String.eqb_refl.
  - destruct (String.eqb_spec k k') as [->|ne]; simpl.
    + now rewrite String.eqb_refl.
    + destruct (String.eqb_spec k k'); [contradiction | assumption].
Qed.

Lemma get_set_other d k k' v : k' <> k -> get (set d k v) k' = get d k'.
Proof.
  intros ne. induction d as [|[k0 v0] d IH]; simpl.
  - destruct (String.eqb_spec k' k); [contradiction | reflexivity].
  - destruct (String.eqb_spec k k0) as [->|ne0]; simpl.
    + destruct (String.eqb_spec k' k0); [contradiction | reflexivity].
    + now rewrite IH.
Qed.

Lemma keys_set_mem d k v : mem k d = true -> keys (set d k v) = keys d.
Proof.
  unfold mem, keys. induction d as [|[k0 v0] d IH]; simpl.
  - discriminate.
  - destruct (String.eqb_spec k k0) as [->|ne]; simpl; [reflexivity|].
    intros H. now rewrite IH.
Qed.

Lemma keys_set_new d k v : mem k d = false -> keys (set d k v) = keys d ++ [k].
Proof.
  unfold mem, keys. induction d as [|[k0 v0] d IH]; simpl.
  - reflexivity.
  - destruct (String.eqb_spec k k0) as [->|ne]; simpl; [discriminate|].
    intros H. now rewrite IH.
Qed.

Lemma In_keys_set d k v k' : In k' (keys (set d k v)) <-> k' = k \/ In k' (keys d).
Proof.
  destruct (mem k d) eqn:E.
  - rewrite keys_set_mem by assumption. apply mem_iff_In in E.
    split; [auto | intros [->|]; assumption].
  - rewrite keys_set_new by assumption. rewrite in_app_iff. simpl.
    split; [intros [|[<-|[]]]; auto | intros [->|]; auto].
Qed.

End DictFacts.

(* ================================================================= *)
(** * LookupMatcher.find_match *)

Section FindMatch.

Context {V : Type}.
Implicit Types (lookup : dict V) (key k : string).

Lemma find_first_such {A : Type} (p : A -> bool) (P : A -> Prop)
  (l : list A) (k : A) :
  (forall x, p x = true <-> P x) ->
  find p l = Some k <-> first_such P l k.
Proof.
  intros R. unfold first_such. induction l as [|x l IH]; simpl.
  - split; [discriminate | intros [[|? ?] [? [H _]]]; discriminate H].
  - destruct (p x) eqn:E.
    + split.
      * intros [= ->]. exists [], l.
        repeat split; [now apply R | intros ? []].
      * intros [[|y before] [after [H [Hk Hb]]]]; simpl in H.
        -- now inversion H.
        -- inversion H; subst y. exfalso. apply (Hb x); [now left | now apply R].
    + rewrite IH. split.
      * intros [before [after [-> [Hk Hb]]]]. exists (x :: before), after.
        repeat split; [assumption|]. intros k' [<-|i]; [|now apply Hb].
        rewrite <- R. congruence.
      * intros [[|y before] [after [H [Hk Hb]]]]; simpl in H.
        -- inversion H; subst x. apply R in Hk. congruence.
        -- inversion H; subst. exists before, after.
           repeat split; [assumption|]. intros k' i. apply Hb. now right.
Qed.

Lemma find_None_iff {A : Type} (p : A -> bool) (l : list A) :
  find p l = None <-> forall x, In x l -> p x = false.
Proof.
  induction l as [|x l IH]; simpl.
  - split; [intros _ ? [] | reflexivity].
  - destruct (p x) eqn:E.
    + split; [discriminate | intros H; rewrite (H x) in E by (now left); discriminate].
    + rewrite IH. split; [intros H y [<-|i]; auto | intros H y i; apply H; now right].
Qed.

(** The test of the scan says what the comment of the source says. *)
Lemma substring_hit_iff key k :
  substring_hit (lower key) k = true <-> matches key k.
Proof.
  unfold substring_hit, matches. now rewrite orb_true_iff, !contains_iff.
Qed.

(** C6. A key that is an entry of the table, letter for letter, is
    returned as it is, whatever the substring scan would have found. *)
Theorem find_match_exact key lookup :
  In key (keys lookup) -> find_match key lookup = Some key.
Proof.
  intros H. apply mem_iff_In in H. unfold find_match. now rewrite H.
Qed.

(** C7. When the key is not an entry of the table, the answer is the first
    key of the table, in iteration order, whose lowercase form contains
    the lowercase query or is contained in it; when no key does, the
    answer is [None].  The function is total: it has no error case. *)
Theorem find_match_scan key lookup :
  ~ In key (keys lookup) ->
  (forall k,
      find_match key lookup = Some k <->
      first_such (matches key) (keys lookup) k) /\
  (find_match key lookup = None <->
   forall k, In k (keys lookup) -> ~ matches key k).
Proof.
  intros H. apply mem_false_iff in H. unfold find_match. rewrite H. cbv zeta.
  split.
  - intros k. apply find_first_such. intros x. apply substring_hit_iff.
  - rewrite find_None_iff. split; intros Hn k i; specialize (Hn k i).
    + now rewrite <- not_true_iff_false, substring_hit_iff in Hn.
    + now rewrite <- not_true_iff_false, substring_hit_iff.
Qed.

(** C10, as amended.  On a table whose first key is [k0]: the empty
    query, when it is not a key, resolves to [k0]; and so does every query
    that is not itself a key and whose lowercase form occurs in the
    lowercase form of [k0]. *)
Theorem find_match_first_key (k0 : string) (v0 : V) (rest : dict V) :
  let lookup := (k0, v0) :: rest in
  (~ In "" (keys lookup) -> find_match "" lookup = Some k0) /\
  (forall key,
      ~ In key (keys lookup) ->
      substring (lower key) (lower k0) ->
      find_match key lookup = Some k0).
Proof.
  cbv zeta.
  assert (G : forall key, ~ In key (keys ((k0, v0) :: rest)) ->
                     substring (lower key) (lower k0) ->
                     find_match key ((k0, v0) :: rest) = Some k0).
  { intros key H S. apply mem_false_iff in H. unfold find_match. rewrite H.
    cbn. apply contains_iff in S. unfold substring_hit. now rewrite S. }
  split; [|exact G].
  intros H. apply G; [assumption | apply substring_empty].
Qed.

End FindMatch.

(* ================================================================= *)
(** * str.replace *)

Section ReplaceFacts.

Implicit Types (old new s : string).

(** Characters still to be skipped can be dropped beforehand. *)
Lemma replace_scan_skip old new k s :
  replace_scan old new k s = replace_scan old new 0 (drop k s).
Proof.
  revert k; induction s as [|c s IH]; intros [|k]; try reflexivity.
  cbn [replace_scan drop]. apply IH.
Qed.

Lemma drop_0 s : drop 0 s = s.
Proof. now destruct s. Qed.

(** The equations of a left-to-right, non-overlapping replacement of a
    non-empty pattern. *)
Lemma replace_nil old new : replace old new "" = match old with "" => new | _ => "" end.
Proof. now destruct old. Qed.

Lemma replace_hit old new c s :
  old <> "" -> String.prefix old (String c s) = true ->
  replace old new (String c s) =
  (new ++ replace old new (drop (String.length old) (String c s)))%string.
Proof.
  intros ne H. destruct old as [|o old]; [contradiction|].
  unfold replace. cbn [replace_scan]. rewrite H.
  rewrite replace_scan_skip. cbn [String.length drop Nat.sub].
  now rewrite Nat.sub_0_r.
Qed.

Lemma replace_miss old new c s :
  old <> "" -> String.prefix old (String c s) = false ->
  replace old new (String c s) = String c (replace old new s).
Proof.
  intros ne H. destruct old as [|o old]; [contradiction|].
  unfold replace. cbn [replace_scan]. now rewrite H.
Qed.

Lemma substring_cons sub c s : substring sub s -> substring sub (String c s).
Proof. intros [pre [post ->]]. now exists (String c pre), post. Qed.

Lemma substring_append_l (sub t : string) : substring sub (sub ++ t)%string.
Proof. now exists "", t. Qed.

Lemma substring_intersperse new s : substring new (intersperse new s).
Proof.
  destruct s as [|c s]; cbn [intersperse].
  - apply substring_refl.
  - apply substring_append_l.
Qed.

(** Where the pattern occurs, the replacement text appears. *)
Lemma replace_scan_occurs old new k s :
  old <> "" -> substring old (drop k s) ->
  substring new (replace_scan old new k s).
Proof.
  intros ne. revert k; induction s as [|c s IH]; intros k H.
  - destruct k; cbn in H; destruct H as [[|? ?] [post H]];
      destruct old; try discriminate H; contradiction.
  - destruct k as [|k]; cbn [replace_scan].
    + destruct (String.prefix old (String c s)) eqn:E.
      * apply substring_append_l.
      * apply substring_cons, (IH 0). rewrite drop_0.
        cbn [drop] in H. destruct H as [[|d pre] [post H]].
        -- assert (P : String.prefix old (String c s) = true)
             by (apply prefix_iff; now exists post).
           congruence.
        -- simpl in H. inversion H. now exists pre, post.
    + apply IH. exact H.
Qed.

Lemma replace_occurs old new s :
  substring old s -> substring new (replace old new s).
Proof.
  intros H. destruct old as [|o old'] eqn:E.
  - apply substring_intersperse.
  - unfold replace. apply replace_scan_occurs; [discriminate | now rewrite drop_0].
Qed.

Lemma length_append (a b : string) :
  String.length (a ++ b) = (String.length a + String.length b)%nat.
Proof. induction a as [|x a IH]; simpl; [reflexivity | now rewrite IH]. Qed.

Lemma drop_append (a b : string) : drop (String.length a) (a ++ b) = b.
Proof. induction a as [|x a IH]; simpl; [apply drop_0 | exact IH]. Qed.

(** [replace] computes the replacement relation. *)
Lemma replace_replaced old new s :
  old <> "" -> replaced old new s (replace old new s).
Proof.
  intros ne.
  assert (G : forall n s', (String.length s' <= n)%nat ->
                      replaced old new s' (replace old new s')).
  { induction n as [|n IH]; intros [|c s'] Hn; cbn [String.length] in Hn.
    - rewrite replace_nil. destruct old; [contradiction | constructor].
    - lia.
    - rewrite replace_nil. destruct old; [contradiction | constructor].
    - destruct (String.prefix old (String c s')) eqn:E.
      + rewrite replace_hit by assumption.
        apply prefix_iff in E. destruct E as [post E]. rewrite E.
        rewrite drop_append. apply replaced_hit, IH.
        assert (L : String.length (String c s') = String.length (old ++ post))
          by now rewrite E.
        rewrite length_append in L. cbn [String.length] in L.
        destruct old; [contradiction|]. cbn [String.length] in L. lia.
      + rewrite replace_miss by assumption.
        apply replaced_miss; [assumption|]. apply IH. lia. }
  now apply (G (String.length s)).
Qed.

End ReplaceFacts.

(* ================================================================= *)
(** * The cost of one dish *)

Section FormulaCost.

Variable py_eval : string -> result num.

Implicit Types (formula var : string) (ingredients : dict num) (cost : num).

Lemma substitute_app formula ingredients ingredients' :
  substitute formula (ingredients ++ ingredients') =
  substitute (substitute formula ingredients) ingredients'.
Proof. unfold substitute. apply fold_left_app. Qed.

Lemma substitute_snoc formula ingredients var cost :
  substitute formula (ingredients ++ [(var, cost)]) =
  replace var (Num.str cost) (substitute formula ingredients).
Proof. now rewrite substitute_app. Qed.

(** What [formula_cost] hands to [eval] and how it ends. *)
Lemma formula_cost_eq formula ingredients :
  formula_cost py_eval formula ingredients =
  ((if contains "nan" (substitute formula ingredients) then []
    else [substitute formula ingredients]),
   cost_outcome py_eval formula ingredients).
Proof.
  unfold formula_cost, cost_outcome, call_eval, Mon.try_except, Mon.ret.
  cbv zeta.
  destruct (contains "nan" (substitute formula ingredients)); [reflexivity|].
  destruct (py_eval (substitute formula ingredients)) as [v|e]; [reflexivity|].
  destruct (is_Exception e); [cbn; reflexivity | reflexivity].
Qed.



(** When the last variable of the mapping carries [nan] and its name
    occurs in the text substituted so far, the final text contains
    [nan]. *)
Lemma nan_last_variable formula ingredients var :
  substring var (substitute formula ingredients) ->
  formula_cost py_eval formula (ingredients ++ [(var, NaN)]) = ([], Ok NaN).
Proof.
  intros H. rewrite formula_cost_eq. unfold cost_outcome. cbv zeta.
  rewrite substitute_snoc.
  apply (replace_occurs _ (Num.str NaN)) in H. apply contains_iff in H.
  cbn [Num.str] in H |- *. now rewrite H.
Qed.

(** [replace] with the empty pattern computes the interleaving
    relation. *)
Lemma replace_interleaved new s : interleaved new s (replace "" new s).
Proof.
  unfold replace. induction s as [|c s IH]; cbn [intersperse]; now constructor.
Qed.

(** C2.  Nothing sits between the substitution and [eval]: whatever the
    substituted text is made of, it is handed to [eval] as soon as it does
    not contain [nan].  A formula with names, quotes and a call, none of
    them in the allowed character set, reaches [eval] letter for
    letter, and the dish gets what [eval] makes of it. *)
Theorem eval_receives_unfiltered_text :
  (forall formula ingredients,
      contains "nan" (substitute formula ingredients) = false ->
      Mon.evaluated (formula_cost py_eval formula ingredients) =
      [substitute formula ingredients]) /\
  let formula := "__import__('os').getcwd()" in
  all_allowed formula = false /\
  formula_cost py_eval formula [] =
  ([formula],
   match py_eval formula with
   | Ok v => Ok v
   | Raise e => if is_Exception e then Ok NaN else Raise e
   end).
Proof.
  split.
  - intros formula ingredients H. rewrite formula_cost_eq. cbn. now rewrite H.
  - cbv zeta. split; [reflexivity|]. now rewrite formula_cost_eq.
Qed.

(** C3, as amended.  When the substituted text contains [nan], the cost
    is [nan] and [eval] is not called. *)
Theorem nan_text_skips_eval formula ingredients :
  substring "nan" (substitute formula ingredients) ->
  formula_cost py_eval formula ingredients = ([], Ok NaN).
Proof.
  intros H. apply contains_iff in H.
  rewrite formula_cost_eq. unfold cost_outcome. cbv zeta. now rewrite H.
Qed.

(** C4.  Substitution is a chain of textual replacements in dictionary
    order, each applied to the text the earlier ones produced and each
    replacing the occurrences of the variable's name by [str] of its
    value: left to right and without overlap for a non-empty name, in
    front of every character and at the end for the empty name.  The
    resulting text is what [eval] receives.  On ["AA+A"] the mapping
    [{A: 1, AA: 2}] gives ["11+1"], and the same mapping in the other
    order gives ["2+1"]; on ["A+1"] the empty name with value 2 gives
    ["2A2+212"]. *)
Theorem substitution_is_textual :
  (forall formula, substitute formula [] = formula) /\
  (forall formula ingredients var cost,
      substitute formula (ingredients ++ [(var, cost)]) =
      replace var (Num.str cost) (substitute formula ingredients)) /\
  (forall formula ingredients var cost,
      var <> "" ->
      replaced var (Num.str cost) (substitute formula ingredients)
        (substitute formula (ingredients ++ [(var, cost)]))) /\
  (forall formula ingredients,
      Mon.evaluated (formula_cost py_eval formula ingredients) =
      if contains "nan" (substitute formula ingredients) then []
      else [substitute formula ingredients]) /\
  substitute "AA+A" [("A", Int 1); ("AA", Int 2)] = "11+1" /\
  substitute "AA+A" [("AA", Int 2); ("A", Int 1)] = "2+1" /\
  formula_cost py_eval "AA+A" [("A", Int 1); ("AA", Int 2)] =
  (["11+1"],
   match py_eval "11+1" with
   | Ok v => Ok v
   | Raise e => if is_Exception e then Ok NaN else Raise e
   end) /\
  (forall formula ingredients cost,
      interleaved (Num.str cost) (substitute formula ingredients)
        (substitute formula (ingredients ++ [("", cost)]))) /\
  substitute "A+1" [("", Int 2)] = "2A2+212" /\
  substitute "AB" [("A", Int 1); ("", Int 0); ("B", Int 2)] = "01020".
Proof.
  split; [reflexivity|].
  split; [intros; apply substitute_snoc|].
  split; [intros; rewrite substitute_snoc; now apply replace_replaced|].
  split; [intros; now rewrite formula_cost_eq|].
  split; [reflexivity|]. split; [reflexivity|].
  split; [now rewrite formula_cost_eq|].
  split; [intros; rewrite substitute_snoc; apply replace_interleaved|].
  split; reflexivity.
Qed.

End FormulaCost.

(* ================================================================= *)
(** * Loops that fill a dictionary *)

(* Facts about a loop [for a in l: d[kf a] = vf a]. *)

Section FillFacts.

Context {A V : Type}.
Variables (kf : A -> string) (vf : A -> V).

Lemma get_fill_notin l (d : dict V) k :
  ~ In k (map kf l) -> get (fold_left (fun d' x => set d' (kf x) (vf x)) l d) k = get d k.
Proof.
  revert d; induction l as [|a l IH]; intros d H; [reflexivity|].
  cbn in H |- *. rewrite IH by tauto.
  apply get_set_other. intros ->. tauto.
Qed.

(** The entry of a key is the value of the last row that sets it. *)
Lemma get_fill_last before a after (d : dict V) :
  ~ In (kf a) (map kf after) ->
  get (fold_left (fun d' x => set d' (kf x) (vf x)) (before ++ a :: after) d) (kf a) = Some (vf a).
Proof.
  intros H. rewrite fold_left_app. cbn [fold_left].
  rewrite get_fill_notin by assumption.
  apply get_set_same.
Qed.

Lemma In_keys_fill l (d : dict V) k :
  In k (keys (fold_left (fun d' x => set d' (kf x) (vf x)) l d)) <-> In k (keys d) \/ In k (map kf l).
Proof.
  revert d; induction l as [|a l IH]; intros d; cbn [fold_left map In].
  - tauto.
  - rewrite IH, In_keys_set. split; intros H.
    + destruct H as [[->|H]|H]; auto.
    + destruct H as [H|[<-|H]]; auto.
Qed.

End FillFacts.

(* ================================================================= *)
(** * calculate_recipe_costs *)

Section RecipeCosts.

Variable py_eval : string -> result num.

Implicit Types (cost_lookup : dict num) (dish_ingredients : dict (dict num)).

(** One turn of the first loop, as a single assignment. *)
Lemma get_add_ingredient cost_lookup dish_ingredients row d :
  get (add_ingredient cost_lookup dish_ingredients row) d =
  if String.eqb d (DishIngredient.dish row)
  then Some (set (get_default dish_ingredients (DishIngredient.dish row) [])
               (DishIngredient.ingredient_map row)
               (resolve cost_lookup (DishIngredient.ingredient row)))
  else get dish_ingredients d.
Proof.
  unfold add_ingredient. cbv zeta.
  set (dish := DishIngredient.dish row).
  set (di1 := if mem dish dish_ingredients then dish_ingredients
              else set dish_ingredients dish []).
  assert (E1 : get_default di1 dish [] = get_default dish_ingredients dish []).
  { unfold di1, mem, get_default.
    destruct (get dish_ingredients dish) eqn:E; rewrite ?E; [reflexivity|].
    now rewrite get_set_same. }
  assert (E2 : forall d', d' <> dish -> get di1 d' = get dish_ingredients d').
  { intros d' ne. unfold di1. destruct (mem dish dish_ingredients); [reflexivity|].
    now apply get_set_other. }
  assert (E3 : (if mem (DishIngredient.ingredient row) cost_lookup
                then get_default cost_lookup (DishIngredient.ingredient row) NaN
                else NaN) = resolve cost_lookup (DishIngredient.ingredient row)).
  { unfold mem, get_default, resolve.
    now destruct (get cost_lookup (DishIngredient.ingredient row)). }
  rewrite <- E3, E1.
  destruct (mem (DishIngredient.ingredient row) cost_lookup);
    (destruct (String.eqb_spec d dish) as [->|ne];
     [apply get_set_same | rewrite get_set_other by assumption; now apply E2]).
Qed.

Lemma get_default_add_ingredient cost_lookup dish_ingredients row d :
  get_default (add_ingredient cost_lookup dish_ingredients row) d [] =
  if String.eqb d (DishIngredient.dish row)
  then set (get_default dish_ingredients d [])
         (DishIngredient.ingredient_map row)
         (resolve cost_lookup (DishIngredient.ingredient row))
  else get_default dish_ingredients d [].
Proof.
  unfold get_default at 1. rewrite get_add_ingredient.
  destruct (String.eqb_spec d (DishIngredient.dish row)) as [->|ne]; reflexivity.
Qed.

(** The mapping of a dish after the first loop: its rows of the
    dish_ingredient sheet, in sheet order, each binding its variable. *)
Lemma dish_mapping_eq cost_lookup dish_ingredient_df d :
  forall dish_ingredients,
  get_default (fold_left (add_ingredient cost_lookup) dish_ingredient_df
                 dish_ingredients) d [] =
  fold_left
    (fun inner r => set inner (DishIngredient.ingredient_map r)
                      (resolve cost_lookup (DishIngredient.ingredient r)))
    (filter (fun r => String.eqb d (DishIngredient.dish r)) dish_ingredient_df)
    (get_default dish_ingredients d []).
Proof.
  induction dish_ingredient_df as [|row rows IH]; intros di; [reflexivity|].
  cbn [fold_left filter]. rewrite IH, get_default_add_ingredient.
  destruct (String.eqb d (DishIngredient.dish row)); reflexivity.
Qed.


Lemma bind_ext {A B : Type} (m : M A) (f g : A -> M B) :
  (forall a, f a = g a) -> Mon.bind m f = Mon.bind m g.
Proof. intros H. destruct m as [l [a|e]]; [cbn; now rewrite H | reflexivity]. Qed.











End RecipeCosts.

(* ================================================================= *)
(** * Dictionaries without repeated keys *)

Section NoDupFacts.

Context {V : Type}.
Implicit Types (d : dict V) (k : string) (v : V).

Lemma set_new d k v : ~ In k (keys d) -> set d k v = d ++ [(k, v)].
Proof.
  induction d as [|[k' v'] d IH]; cbn; intros H; [reflexivity|].
  destruct (String.eqb_spec k k') as [->|ne]; [tauto|].
  rewrite IH by tauto. reflexivity.
Qed.

(** Rebuilding a dictionary from its own items gives it back. *)
Lemma fill_nodup (l acc : dict V) :
  NoDup (keys (acc ++ l)) ->
  fold_left (fun d kv => set d (fst kv) (snd kv)) l acc = acc ++ l.
Proof.
  revert acc; induction l as [|[k v] l IH]; intros acc H.
  - now rewrite app_nil_r.
  - cbn [fold_left fst snd].
    replace (acc ++ (k, v) :: l) with ((acc ++ [(k, v)]) ++ l) in H |- *
      by now rewrite <- app_assoc.
    rewrite set_new.
    + now apply IH.
    + unfold keys in H. rewrite !map_app in H.
      apply NoDup_app_remove_r in H. apply NoDup_remove_2 in H.
      now rewrite app_nil_r in H.
Qed.

Lemma of_pairs_nodup (l : dict V) : NoDup (keys l) -> of_pairs l = l.
Proof. intros H. unfold of_pairs. now rewrite fill_nodup. Qed.

Lemma NoDup_keys_set d k v : NoDup (keys d) -> NoDup (keys (set d k v)).
Proof.
  intros H. destruct (mem k d) eqn:E.
  - now rewrite keys_set_mem.
  - rewrite keys_set_new by assumption. apply mem_false_iff in E.
    apply NoDup_app; [assumption | repeat constructor; intros [] |].
    intros x Hx [<-|[]]. contradiction.
Qed.

Lemma NoDup_keys_fill {A : Type} (kf : A -> string) (vf : A -> V) l d :
  NoDup (keys d) ->
  NoDup (keys (fold_left (fun d' a => set d' (kf a) (vf a)) l d)).
Proof.
  revert d; induction l as [|a l IH]; intros d H; [assumption|].
  cbn [fold_left]. now apply IH, NoDup_keys_set.
Qed.

End NoDupFacts.

(* ================================================================= *)
(** * Temperatures, durations and energies *)

Section Energy.

Variables temperature_lookup duration_lookup : dict num.

Lemma find_match_in_keys {V : Type} key (lookup : dict V) k :
  find_match key lookup = Some k -> In k (keys lookup).
Proof.
  unfold find_match. destruct (mem key lookup) eqn:E.
  - intros [= <-]. now apply mem_iff_In.
  - intros H. now apply find_some in H.
Qed.

(** [self.temperature_lookup[matched_key]] cannot fail: the matched key is
    a key of the table. *)
Lemma get_temperature_eq temp_key :
  get_temperature temperature_lookup temp_key =
  Ok (temperature_of temperature_lookup temp_key).
Proof.
  unfold get_temperature, temperature_of. cbv zeta.
  destruct (find_match temp_key temperature_lookup) as [[|c k]|] eqn:E;
    cbn [truthy]; try reflexivity.
  apply find_match_in_keys, mem_iff_In in E.
  unfold Res.index, get_default. unfold mem in E.
  now destruct (get temperature_lookup (String c k)).
Qed.

Lemma get_duration_lookup_eq duration_key :
  get_duration_lookup duration_lookup duration_key =
  Ok (duration_of duration_lookup duration_key).
Proof.
  unfold get_duration_lookup, duration_of, Res.index, get_default.
  now destruct (get duration_lookup duration_key).
Qed.

Lemma energy_loop_eq dish_df :
  forall energies,
  energy_loop temperature_lookup duration_lookup dish_df energies =
  Ok (fold_left
        (fun acc row =>
           set acc (Dish.dish row)
             (energy_of temperature_lookup duration_lookup row))
        dish_df energies).
Proof.
  induction dish_df as [|row rows IH]; intros energies; [reflexivity|].
  cbn [energy_loop fold_left].
  rewrite get_temperature_eq, get_duration_lookup_eq. cbn [Res.bind].
  now rewrite IH.
Qed.

(** *** The builtin max in the presence of nan *)

Lemma max_from_nan rest : max_from NaN rest = NaN.
Proof.
  unfold max_from. induction rest as [|x rest IH]; [reflexivity|].
  cbn [fold_left]. now destruct x.
Qed.

Lemma max_from_int z rest :
  max_from (Int z) rest =
  Int (match defined_max rest with None => z | Some m => Z.max z m end).
Proof.
  unfold max_from. revert z; induction rest as [|x rest IH]; intros z;
    [reflexivity|].
  cbn [fold_left defined_max]. destruct x as [y|].
  - cbn [Num.gt]. destruct (Z.gtb_spec y z) as [g|g]; rewrite IH;
      destruct (defined_max rest); f_equal; lia.
  - cbn [Num.gt]. apply IH.
Qed.

(** When the first energy is defined, [max] is the greatest defined
    energy. *)
Lemma py_max_first_defined z rest :
  exists m, py_max (Int z :: rest) = Ok (Int m) /\
            defined_max (Int z :: rest) = Some m.
Proof.
  cbn [py_max defined_max]. rewrite max_from_int.
  destruct (defined_max rest); eexists; split; reflexivity.
Qed.

(** When the first energy is [nan], so is [max], whatever follows. *)
Lemma py_max_first_nan rest : py_max (NaN :: rest) = Ok NaN.
Proof. cbn [py_max]. now rewrite max_from_nan. Qed.

Lemma defined_max_all_nan xs :
  (forall x, In x xs -> x = NaN) -> defined_max xs = None.
Proof.
  induction xs as [|x xs IH]; intros H; [reflexivity|].
  rewrite (H x) by now left. cbn. apply IH. intros y Hy. apply H. now right.
Qed.

Lemma flags_of_eq (energies : dict num) max_energy :
  NoDup (keys energies) ->
  flags_of energies max_energy =
  map (fun de => (fst de, Num.eq (snd de) max_energy)) energies.
Proof.
  intros H. unfold flags_of. apply of_pairs_nodup.
  unfold keys. rewrite map_map. exact H.
Qed.

(** The shape of [calculate_energy_flags]: it fails on an empty sheet and
    nowhere else. *)
Lemma calculate_energy_flags_eq dish_df :
  let energies :=
    fold_left
      (fun acc row =>
         set acc (Dish.dish row)
           (energy_of temperature_lookup duration_lookup row))
      dish_df [] in
  calculate_energy_flags temperature_lookup duration_lookup dish_df =
  match values energies with
  | [] => Raise ValueError
  | first :: rest =>
      Ok (energies,
          map (fun de => (fst de, Num.eq (snd de) (max_from first rest)))
            energies)
  end.
Proof.
  cbv zeta. unfold calculate_energy_flags. rewrite energy_loop_eq.
  cbn [Res.bind]. unfold py_max.
  destruct (values _) as [|first rest] eqn:E; [reflexivity|].
  cbn [Res.bind]. rewrite flags_of_eq; [reflexivity|].
  apply NoDup_keys_fill. constructor.
Qed.

(** With a defined first energy, the flags are those of the
    specification: true exactly on the greatest defined energy. *)
Lemma flags_when_first_defined (energies : dict num) z rest :
  values energies = Int z :: rest ->
  map (fun de => (fst de, Num.eq (snd de) (max_from (Int z) rest))) energies =
  map (fun de => (fst de, is_greatest (values energies) (snd de))) energies.
Proof.
  intros E. apply map_ext. intros [d e]. cbn [fst snd]. f_equal.
  unfold is_greatest. rewrite E.
  destruct (py_max_first_defined z rest) as [m [Hm Hd]].
  cbn [py_max] in Hm. injection Hm as ->. rewrite Hd.
  now destruct e.
Qed.

(** With an undefined first energy, no dish is flagged. *)
Lemma flags_when_first_nan (energies : dict num) rest :
  map (fun de => (fst de, Num.eq (snd de) (max_from NaN rest))) energies =
  map (fun de => (fst de, false)) energies.
Proof.
  apply map_ext. intros [d e]. cbn [fst snd]. rewrite max_from_nan.
  now destruct e.
Qed.

(** C1.  On the sample sheet the first dish has no duration, so its
    energy is [nan]; [max] then returns [nan] and no dish is flagged,
    although the roast has the greatest defined energy.  With the rows in
    the reverse order the roast is flagged. *)
Theorem leading_nan_energy_hides_maximum :
  calculate_energy_flags Sample.temperature_lookup Sample.duration_lookup
    Sample.dishes =
  Ok ([("soup", NaN); ("bread", Int 1000); ("roast", Int 4000)],
      [("soup", false); ("bread", false); ("roast", false)]) /\
  is_greatest [NaN; Int 1000; Int 4000] (Int 4000) = true /\
  calculate_energy_flags Sample.temperature_lookup Sample.duration_lookup
    (rev Sample.dishes) =
  Ok ([("roast", Int 4000); ("bread", Int 1000); ("soup", NaN)],
      [("roast", true); ("bread", false); ("soup", false)]).
Proof. repeat split. Qed.

End Energy.

(* ================================================================= *)
(** * The summary *)

Section SummaryFacts.

Variables temperature_lookup duration_lookup : dict num.
Variable format_number : Z -> string.
Variables (recipe_costs : dict num) (most_energy_flags : dict bool).

(** The row [generate_summary] appends for a dish row. *)
Lemma summary_row_eq row :
  summary_row temperature_lookup duration_lookup recipe_costs
    most_energy_flags row =
  Ok (Summary.Build (Dish.dish row)
        (get_default recipe_costs (Dish.dish row) NaN)
        (temperature_of temperature_lookup (Dish.temperature row))
        (duration_of duration_lookup (Dish.duration row))
        (get_default most_energy_flags (Dish.dish row) false)).
Proof.
  unfold summary_row. cbv zeta.
  now rewrite get_temperature_eq, get_duration_lookup_eq.
Qed.

Lemma generate_summary_eq dish_df :
  generate_summary temperature_lookup duration_lookup recipe_costs
    most_energy_flags dish_df =
  Ok (map
        (fun row =>
           Summary.Build (Dish.dish row)
             (get_default recipe_costs (Dish.dish row) NaN)
             (temperature_of temperature_lookup (Dish.temperature row))
             (duration_of duration_lookup (Dish.duration row))
             (get_default most_energy_flags (Dish.dish row) false))
        dish_df).
Proof.
  induction dish_df as [|row rows IH]; [reflexivity|].
  cbn [generate_summary map]. rewrite summary_row_eq, IH. reflexivity.
Qed.

Lemma round_cost_column_eq (summary_df : list Summary.row) :
  summary_df <> [] ->
  round_cost_column summary_df =
  Ok (map
        (fun r =>
           Summary.Build (Summary.dish r)
             (Num.round 2 (Summary.recipe_cash_cost r))
             (Summary.temp_degC r) (Summary.time_mins r)
             (Summary.most_energy r))
        summary_df).
Proof. now destruct summary_df. Qed.

(** [generate_summary] always succeeds, with one row per row of the dish
    sheet and the dishes in sheet order; on a sheet with at least one
    dish [save_to_csv] writes the header and one line per dish, in the
    same order; and in every line an undefined cost, temperature or
    duration is the text [NaN]. *)
Lemma summary_has_one_row_per_dish (dish_df : list Dish.row) :
  exists summary_df,
    generate_summary temperature_lookup duration_lookup recipe_costs
      most_energy_flags dish_df = Ok summary_df /\
    List.length summary_df = List.length dish_df /\
    map Summary.dish summary_df = map Dish.dish dish_df /\
    (dish_df <> [] ->
     exists lines,
       save_to_csv temperature_lookup duration_lookup format_number false
         recipe_costs most_energy_flags dish_df = Ok (Some (csv_header :: lines)) /\
       List.length lines = List.length dish_df /\
       map (fun line => nth 0 line "") lines = map Dish.dish dish_df /\
       forall i r,
         nth_error summary_df i = Some r ->
         exists cost temp time flag,
           nth_error lines i = Some [Summary.dish r; cost; temp; time; flag] /\
           (Summary.recipe_cash_cost r = NaN -> cost = "NaN") /\
           (Summary.temp_degC r = NaN -> temp = "NaN") /\
           (Summary.time_mins r = NaN -> time = "NaN")).
Proof.
  eexists. split; [apply generate_summary_eq|].
  split; [apply length_map|].
  split; [now rewrite map_map|].
  intros Hne.
  unfold save_to_csv. rewrite generate_summary_eq. cbn [Res.bind].
  rewrite round_cost_column_eq
    by (destruct dish_df; [contradiction | discriminate]).
  cbn [Res.bind Res.try_except to_csv].
  eexists. split; [reflexivity|].
  split; [now rewrite !length_map|].
  split; [now rewrite !map_map|].
  intros i r Hr.
  exists (csv_num format_number (Num.round 2 (Summary.recipe_cash_cost r))),
    (csv_num format_number (Summary.temp_degC r)),
    (csv_num format_number (Summary.time_mins r)),
    (csv_bool (Summary.most_energy r)).
  split; [|repeat split; intros ->; reflexivity].
  rewrite nth_error_map in Hr. rewrite !nth_error_map.
  destruct (nth_error dish_df i) as [row|]; [|discriminate Hr].
  cbn in Hr |- *. injection Hr as <-. reflexivity.
Qed.

End SummaryFacts.

(* ================================================================= *)
(** * The whole run *)

Section Process.

Variable py_eval : string -> result num.
Variables temperature_lookup duration_lookup : dict num.
Variable format_number : Z -> string.

(** C9.  On a dish sheet without rows [max] has nothing to work on: the
    run stops with [ValueError] in [calculate_energy_flags], before any
    summary is built or written, whatever the other sheets hold; and
    [save_to_csv] on its own stops with [KeyError] on that sheet.  No
    summary with zero rows comes out. *)
Theorem empty_sheet_has_no_summary :
  (forall dry_run dish_ingredient_df ingredient_cost_df,
      Mon.outcome
        (process py_eval temperature_lookup duration_lookup format_number
           dry_run [] dish_ingredient_df ingredient_cost_df)
      = Raise ValueError) /\
  calculate_energy_flags temperature_lookup duration_lookup []
  = Raise ValueError /\
  (forall recipe_costs most_energy_flags,
      save_to_csv temperature_lookup duration_lookup format_number false
        recipe_costs most_energy_flags [] = Raise KeyError).
Proof. repeat split. Qed.


End Process.

(* ================================================================= *)
(** * The theorems at work on concrete inputs *)

Section Instances.

Local Open Scope Z_scope.

(** The example of the specification: the exact key wins although ["XY"]
    contains it. *)
Lemma find_match_exact_X :
  In "X" (keys [("X", 1); ("XY", 2)]) /\
  find_match "X" [("X", 1); ("XY", 2)] = Some "X".
Proof.
  assert (H : In "X" (keys [("X", 1); ("XY", 2)])) by (simpl; now left).
  split; [exact H | exact (find_match_exact "X" [("X", 1); ("XY", 2)] H)].
Defined.

(** Two keys of the table match ["oven hot"]; the earlier one is
    returned. *)
Lemma find_match_scan_oven_hot :
  ~ In "oven hot" (keys [("Cold", 1); ("HOT", 2); ("Oven", 3)]) /\
  find_match "oven hot" [("Cold", 1); ("HOT", 2); ("Oven", 3)] = Some "HOT".
Proof.
  assert (H : ~ In "oven hot" (keys [("Cold", 1); ("HOT", 2); ("Oven", 3)])).
  { simpl. intros [H|[H|[H|[]]]]; discriminate H. }
  split; [exact H|].
  apply (proj1 (find_match_scan "oven hot" [("Cold", 1); ("HOT", 2); ("Oven", 3)] H)).
  exists ["Cold"], ["Oven"]. split; [reflexivity|]. split.
  - right. now exists "oven ", "".
  - intros k' [<-|[]] [M|M]; apply contains_iff in M; discriminate M.
Defined.

(** The empty query resolves to the first key. *)
Lemma find_match_empty_query :
  ~ In "" (keys [("X", 1); ("XY", 2)]) /\
  find_match "" [("X", 1); ("XY", 2)] = Some "X".
Proof.
  assert (H : ~ In "" (keys [("X", 1); ("XY", 2)])).
  { simpl. intros [H|[H|[]]]; discriminate H. }
  split; [exact H|].
  exact (proj1 (find_match_first_key "X" 1 [("XY", 2)]) H).
Defined.

(** A query that is itself a key is returned as it is, although its
    lowercase form occurs in the first key of the table. *)
Lemma exact_key_beats_first_key :
  substring (lower "a") (lower "ab") /\
  find_match "a" [("ab", 1); ("a", 2)] <> Some "ab".
Proof.
  split; [now exists "", "b" | discriminate].
Qed.

(** The first step of the specification's example: both occurrences of
    [A] in ["AA+A"] become [1]. *)
Lemma substitution_replaces_A :
  "A" <> "" /\ replaced "A" "1" "AA+A" "11+1".
Proof.
  assert (H : "A" <> "") by discriminate.
  split; [exact H|].
  exact (proj1 (proj2 (proj2 (substitution_is_textual Sample.table_eval)))
           "AA+A" [] "A" (Int 1) H).
Defined.

(** A mapping whose second variable carries [nan]: the formula uses it,
    the text contains [nan], and [eval] is not called. *)
Lemma nan_text_skips_eval_soup :
  substring "nan" (substitute "A+B" [("A", Int 2); ("B", NaN)]) /\
  formula_cost Sample.table_eval "A+B" [("A", Int 2); ("B", NaN)] = ([], Ok NaN).
Proof.
  assert (H : substring "nan" (substitute "A+B" [("A", Int 2); ("B", NaN)])).
  { apply contains_iff. reflexivity. }
  split; [exact H|].
  exact (nan_text_skips_eval Sample.table_eval "A+B" [("A", Int 2); ("B", NaN)] H).
Defined.

(** A mapping whose second variable carries [nan]: the formula does not
    use it, [eval] is called on ["2+1"] and the cost is 3. *)
Lemma unused_nan_variable_is_evaluated :
  In ("B", NaN) [("A", Int 2); ("B", NaN)] /\
  formula_cost Sample.table_eval "A+1" [("A", Int 2); ("B", NaN)] =
  (["2+1"], Ok (Int 3)).
Proof.
  split; [right; now left | reflexivity].
Qed.





(** The energies of the specification's example: the two dishes that
    share the greatest energy are both flagged. *)
Lemma tied_energies_are_both_flagged :
  calculate_energy_flags
    [("t", Int 1)] [("a", Int 10); ("b", Int 20)]
    [ Dish.Build "d1" "0" "t" "a"; Dish.Build "d2" "0" "t" "b";
      Dish.Build "d3" "0" "t" "b" ] =
  Ok ([("d1", Int 10); ("d2", Int 20); ("d3", Int 20)],
      [("d1", false); ("d2", true); ("d3", true)]).
Proof. reflexivity. Qed.

(** The sample sheet has three dishes and the file three lines under
    the header. *)
Lemma sample_summary_lines :
  exists lines,
    save_to_csv Sample.temperature_lookup Sample.duration_lookup
      Sample.decimal false [("bread", Int 3)] [] Sample.dishes
    = Ok (Some (csv_header :: lines)) /\
    List.length lines = 3%nat.
Proof.
  destruct (summary_has_one_row_per_dish Sample.temperature_lookup
              Sample.duration_lookup Sample.decimal [("bread", Int 3)] []
              Sample.dishes) as [summary_df [_ [_ [_ H]]]].
  assert (N : Sample.dishes <> []) by discriminate.
  destruct (H N) as [lines [H1 [H2 _]]].
  exists lines. split; [exact H1 | exact H2].
Defined.

(** The sample run end to end. *)
Lemma sample_process :
  process Sample.table_eval Sample.temperature_lookup Sample.duration_lookup
    Sample.decimal false Sample.dishes Sample.dish_ingredients
    Sample.ingredient_costs =
  (["2+1"; "1/0"],
   Ok ([ Summary.Build "soup" NaN (Int 100) NaN false;
         Summary.Build "bread" (Int 3) (Int 100) (Int 10) false;
         Summary.Build "roast" NaN (Int 200) (Int 20) false ],
       Some [ csv_header;
              ["soup"; "NaN"; "100"; "NaN"; "False"];
              ["bread"; "3"; "100"; "10"; "False"];
              ["roast"; "NaN"; "200"; "20"; "False"] ])).
Proof. reflexivity. Qed.

End Instances.

(* ================================================================= *)
(** * More on find_match and the two lookups *)

Section LookupFacts.

Context {V : Type}.
Implicit Types (lookup : dict V) (key k : string).

(** X1.  Whatever [find_match] returns is a key of the table, so indexing
    the table with it cannot fail. *)
Theorem find_match_returns_table_key key lookup k :
  find_match key lookup = Some k ->
  In k (keys lookup) /\ exists v, Res.index lookup k = Ok v.
Proof.
  intros H.
  assert (I : In k (keys lookup)).
  { unfold find_match in H. destruct (mem key lookup) eqn:E.
    - injection H as <-. now apply mem_iff_In.
    - now apply find_some in H. }
  split; [exact I|].
  apply mem_iff_In in I. unfold mem in I. unfold Res.index.
  destruct (get lookup k) as [v|]; [now exists v | discriminate I].
Qed.

(** X2.  Matching is idempotent: a key that [find_match] returned is
    matched to itself. *)
Theorem find_match_idempotent key lookup k :
  find_match key lookup = Some k -> find_match k lookup = Some k.
Proof.
  intros H. unfold find_match in *. destruct (mem key lookup) eqn:E.
  - injection H as <-. now rewrite E.
  - apply find_some in H. destruct H as [H _].
    apply mem_iff_In in H. now rewrite H.
Qed.

(** X3.  Two queries that are not keys of the table and differ only in
    letter case get the same answer. *)
Theorem find_match_ignores_case key key' lookup :
  ~ In key (keys lookup) -> ~ In key' (keys lookup) ->
  lower key = lower key' ->
  find_match key lookup = find_match key' lookup.
Proof.
  intros H H' E. apply mem_false_iff in H, H'.
  unfold find_match. now rewrite H, H', E.
Qed.

(** X4.  A table key that differs from the query only in letter case is
    enough for the scan to find a match: a query that is not a key, but
    whose lowercase form is that of some key, never gets [None]. *)
Theorem find_match_finds_other_case key lookup :
  ~ In key (keys lookup) ->
  (exists k, In k (keys lookup) /\ lower k = lower key) ->
  exists k, find_match key lookup = Some k /\ matches key k.
Proof.
  intros H [k0 [I E]]. apply mem_false_iff in H.
  unfold find_match. rewrite H. cbv zeta.
  destruct (find (substring_hit (lower key)) (keys lookup)) as [k|] eqn:F.
  - exists k. split; [reflexivity|].
    apply find_some in F. now apply substring_hit_iff.
  - exfalso. rewrite find_None_iff in F. specialize (F k0 I).
    rewrite <- not_true_iff_false, substring_hit_iff in F.
    apply F. left. rewrite E. apply substring_refl.
Qed.

End LookupFacts.

(* ================================================================= *)
(** * Numbers never bring [nan] into a formula *)

Section NumeralFacts.

Implicit Types (old new s t p : string).












Lemma replace_absent old new s :
  old <> "" -> ~ substring old s -> replace old new s = s.
Proof.
  intros ne. induction s as [|c s IH]; intros H.
  - rewrite replace_nil. now destruct old.
  - rewrite replace_miss; [f_equal; apply IH|assumption|].
    + intros S. apply H. now apply substring_cons.
    + apply not_true_iff_false. intros P. apply H.
      apply prefix_iff in P. destruct P as [post ->]. apply substring_append_l.
Qed.

End NumeralFacts.

(* ================================================================= *)
(** * More on the cost of a dish *)

Section CostExtras.

Variable py_eval : string -> result num.

Implicit Types (formula var : string) (ingredients : dict num).



(** X6.  Variables whose names do not occur in the formula leave it as it
    is, whatever their costs. *)
Theorem unused_variables_leave_formula formula ingredients :
  (forall var cost, In (var, cost) ingredients ->
     var <> "" /\ ~ substring var formula) ->
  substitute formula ingredients = formula.
Proof.
  induction ingredients as [|[var cost] rest IH]; intros H; [reflexivity|].
  change (substitute formula ((var, cost) :: rest))
    with (substitute (replace var (Num.str cost) formula) rest).
  destruct (H var cost) as [ne no]; [now left|].
  rewrite replace_absent by assumption.
  apply IH. intros v c Hc. apply (H v c). now right.
Qed.

(** X7.  A used variable without a cost makes the dish cost [nan]: when
    the last variable of the mapping carries [nan] and its name occurs in
    the text substituted so far, [eval] is not called. *)
Theorem missing_cost_of_used_variable formula ingredients var :
  substring var (substitute formula ingredients) ->
  formula_cost py_eval formula (ingredients ++ [(var, NaN)]) = ([], Ok NaN).
Proof. apply nan_last_variable. Qed.



End CostExtras.

(* ================================================================= *)
(** * More on the mapping of a dish *)

Section MappingExtras.

Lemma fill_nodup_map {A V : Type} (kf : A -> string) (vf : A -> V) l :
  forall acc : dict V,
  NoDup (keys acc ++ map kf l) ->
  fold_left (fun d a => set d (kf a) (vf a)) l acc =
  acc ++ map (fun a => (kf a, vf a)) l.
Proof.
  induction l as [|a l IH]; intros acc H; cbn [fold_left map].
  - now rewrite app_nil_r.
  - cbn [map] in H.
    assert (N : ~ In (kf a) (keys acc)).
    { apply NoDup_remove_2 in H. intros I. apply H, in_or_app. now left. }
    rewrite set_new by assumption. rewrite IH.
    + now rewrite <- app_assoc.
    + unfold keys. rewrite map_app. cbn [map fst]. now rewrite <- app_assoc.
Qed.

Lemma filter_idem {A : Type} (f : A -> bool) l :
  filter f (filter f l) = filter f l.
Proof.
  induction l as [|a l IH]; [reflexivity|]. cbn [filter].
  destruct (f a) eqn:E; [cbn [filter]; rewrite E; now f_equal | exact IH].
Qed.

Variable cost_lookup : dict num.
Variable dish_ingredient_df : list DishIngredient.row.

(** X9.  The variables of a dish are substituted in sheet order: when the
    rows of a dish bind distinct variables, its mapping lists them in the
    order of the rows, each with the cost its ingredient resolves to. *)
Theorem mapping_follows_sheet_order (d : string) :
  let rows_of_d :=
    filter (fun r => String.eqb d (DishIngredient.dish r)) dish_ingredient_df in
  NoDup (map DishIngredient.ingredient_map rows_of_d) ->
  get_default (build_dish_ingredients cost_lookup dish_ingredient_df) d [] =
  map (fun r => (DishIngredient.ingredient_map r,
                 resolve cost_lookup (DishIngredient.ingredient r)))
    rows_of_d.
Proof.
  cbv zeta. intros H. unfold build_dish_ingredients.
  rewrite dish_mapping_eq.
  now rewrite (fill_nodup_map DishIngredient.ingredient_map
                 (fun r => resolve cost_lookup (DishIngredient.ingredient r))).
Qed.

(** X10.  The mapping of a dish depends on the rows of that dish only:
    dropping the rows of all other dishes from the sheet leaves it
    unchanged. *)
Theorem mapping_ignores_other_dishes (d : string) :
  get_default (build_dish_ingredients cost_lookup dish_ingredient_df) d [] =
  get_default
    (build_dish_ingredients cost_lookup
       (filter (fun r => String.eqb d (DishIngredient.dish r))
          dish_ingredient_df)) d [].
Proof.
  unfold build_dish_ingredients. now rewrite !dish_mapping_eq, filter_idem.
Qed.

End MappingExtras.

(* ================================================================= *)
(** * More on temperatures, durations and energies *)

Section EnergyExtras.

Variables temperature_lookup duration_lookup : dict num.

(** X11.  [get_temperature] never raises: the key it indexes the table
    with comes from the table. *)
Theorem get_temperature_never_raises temp_key :
  exists v, get_temperature temperature_lookup temp_key = Ok v.
Proof. eexists. apply get_temperature_eq. Qed.

(** X12.  A non-empty key listed in the temperature table gets the
    table's own value, whatever else would match it. *)
Theorem get_temperature_exact temp_key v :
  get temperature_lookup temp_key = Some v -> temp_key <> "" ->
  get_temperature temperature_lookup temp_key = Ok v.
Proof.
  intros G ne. rewrite get_temperature_eq. f_equal.
  unfold temperature_of, find_match, mem. rewrite G.
  destruct temp_key as [|c k]; [contradiction|].
  unfold get_default. now rewrite G.
Qed.

(** X13.  A match on the empty string counts as no match: when
    [find_match] returns the empty key, the temperature is [nan],
    whatever the table holds for it. *)
Theorem get_temperature_empty_match temp_key :
  find_match temp_key temperature_lookup = Some "" ->
  get_temperature temperature_lookup temp_key = Ok NaN.
Proof.
  intros H. rewrite get_temperature_eq. unfold temperature_of. now rewrite H.
Qed.


Lemma get_map_values {A B : Type} (f : A -> B) (d : dict A) k :
  get (map (fun kv => (fst kv, f (snd kv))) d) k = option_map f (get d k).
Proof.
  induction d as [|[k' v] d IH]; [reflexivity|]. cbn.
  now destruct (String.eqb k k').
Qed.

Lemma calculate_energy_flags_inv dish_df energies flags :
  calculate_energy_flags temperature_lookup duration_lookup dish_df =
  Ok (energies, flags) ->
  energies =
  fold_left
    (fun acc row =>
       set acc (Dish.dish row)
         (energy_of temperature_lookup duration_lookup row))
    dish_df [] /\
  exists first rest,
    values energies = first :: rest /\
    flags = map (fun de => (fst de, Num.eq (snd de) (max_from first rest)))
              energies.
Proof.
  rewrite calculate_energy_flags_eq. cbv zeta.
  destruct (values _) as [|first rest] eqn:E; [discriminate|].
  intros [= <- <-]. split; [reflexivity|]. now exists first, rest.
Qed.

(** X15.  The two dictionaries of [calculate_energy_flags] have the same
    keys in the same order, without repetition: the dishes of the
    sheet. *)
Theorem energies_and_flags_share_keys dish_df energies flags :
  calculate_energy_flags temperature_lookup duration_lookup dish_df =
  Ok (energies, flags) ->
  keys flags = keys energies /\
  NoDup (keys energies) /\
  forall d, In d (keys energies) <-> In d (map Dish.dish dish_df).
Proof.
  intros H. apply calculate_energy_flags_inv in H.
  destruct H as [-> [first [rest [_ ->]]]].
  split; [unfold keys; now rewrite map_map|]. split.
  - apply NoDup_keys_fill. constructor.
  - intros d. rewrite (In_keys_fill Dish.dish). cbn. tauto.
Qed.

(** X16.  The energy recorded for a dish is temperature times duration of
    the last row of the sheet that names it. *)
Theorem energy_of_last_row before row after energies flags :
  ~ In (Dish.dish row) (map Dish.dish after) ->
  calculate_energy_flags temperature_lookup duration_lookup
    (before ++ row :: after) = Ok (energies, flags) ->
  get energies (Dish.dish row) =
  Some (Num.mul
          (temperature_of temperature_lookup (Dish.temperature row))
          (duration_of duration_lookup (Dish.duration row))).
Proof.
  intros N H. apply calculate_energy_flags_inv in H. destruct H as [-> _].
  exact (get_fill_last Dish.dish
           (energy_of temperature_lookup duration_lookup)
           before row after [] N).
Qed.

Lemma defined_max_In xs m : defined_max xs = Some m -> In (Int m) xs.
Proof.
  revert m; induction xs as [|[z|] xs IH]; intros m H; cbn in H.
  - discriminate.
  - destruct (defined_max xs) as [m'|].
    + injection H as <-. destruct (Z.max_spec z m') as [[_ ->]|[_ ->]].
      * right. now apply IH.
      * now left.
    + injection H as <-. now left.
  - right. now apply IH.
Qed.

Lemma get_In_nodup {V : Type} (d : dict V) k v :
  NoDup (keys d) -> In (k, v) d -> get d k = Some v.
Proof.
  induction d as [|[k' v'] d IH]; intros N I; [contradiction|].
  cbn in N |- *. inversion N as [|? ? Hn N']; subst.
  destruct I as [[= -> ->]|I].
  - now rewrite String.eqb_refl.
  - destruct (String.eqb_spec k k') as [->|ne]; [|now apply IH].
    exfalso. apply Hn. change k' with (fst (k', v)). now apply in_map.
Qed.

(** X17.  When the first energy is defined, the flags are right: a dish
    is flagged exactly when its energy is the greatest defined energy,
    undefined energies are passed over, and some dish is flagged. *)
Theorem flags_right_when_first_energy_defined dish_df energies flags z rest :
  calculate_energy_flags temperature_lookup duration_lookup dish_df =
  Ok (energies, flags) ->
  values energies = Int z :: rest ->
  (forall d e, get energies d = Some e ->
               get flags d = Some (is_greatest (values energies) e)) /\
  exists d, get flags d = Some true.
Proof.
  intros H E.
  assert (N : NoDup (keys energies)).
  { apply calculate_energy_flags_inv in H. destruct H as [-> _].
    apply NoDup_keys_fill. constructor. }
  apply calculate_energy_flags_inv in H.
  destruct H as [_ [first [rest' [E' ->]]]].
  rewrite E in E'. injection E' as <- <-.
  rewrite (flags_when_first_defined energies z rest E).
  assert (G : forall d e, get energies d = Some e ->
                get (map (fun de => (fst de, is_greatest (values energies) (snd de)))
                       energies) d
                = Some (is_greatest (values energies) e)).
  { intros d e Hd.
    rewrite (get_map_values (is_greatest (values energies))). now rewrite Hd. }
  split; [exact G|].
  destruct (py_max_first_defined z rest) as [m [_ Hm]]. rewrite <- E in Hm.
  pose proof (defined_max_In _ _ Hm) as I.
  unfold values in I. apply in_map_iff in I. destruct I as [[d e] [Ee I]].
  cbn in Ee. subst e. exists d.
  rewrite (G d (Int m)) by now apply get_In_nodup.
  unfold is_greatest. rewrite Hm. now rewrite Z.eqb_refl.
Qed.

(** X18.  When the first energy is [nan], no dish is flagged, whatever
    the other energies are. *)
Theorem no_flag_when_first_energy_nan dish_df energies flags rest :
  calculate_energy_flags temperature_lookup duration_lookup dish_df =
  Ok (energies, flags) ->
  values energies = NaN :: rest ->
  forall d, In d (keys energies) -> get flags d = Some false.
Proof.
  intros H E d I. apply calculate_energy_flags_inv in H.
  destruct H as [_ [first [rest' [E' ->]]]].
  rewrite E in E'. injection E' as <- <-.
  rewrite flags_when_first_nan.
  rewrite (get_map_values (fun _ : num => false)).
  apply mem_iff_In in I. unfold mem in I.
  now destruct (get energies d).
Qed.

End EnergyExtras.

(* ================================================================= *)
(** * More on the summary and the run *)

Section RunExtras.

Variable py_eval : string -> result num.
Variables temperature_lookup duration_lookup : dict num.
Variable format_number : Z -> string.

(** X19.  The summary and the energy pass agree: for the last row of a
    dish, the energy recorded for the dish is the product of the
    temperature and the duration shown in its summary row, and the row's
    flag is the one recorded for the dish. *)
Theorem summary_agrees_with_energies before row after energies flags
  recipe_costs r :
  ~ In (Dish.dish row) (map Dish.dish after) ->
  calculate_energy_flags temperature_lookup duration_lookup
    (before ++ row :: after) = Ok (energies, flags) ->
  summary_row temperature_lookup duration_lookup recipe_costs flags row
  = Ok r ->
  get energies (Dish.dish row) =
  Some (Num.mul (Summary.temp_degC r) (Summary.time_mins r)) /\
  get flags (Dish.dish row) = Some (Summary.most_energy r).
Proof.
  intros N H R. rewrite summary_row_eq in R. injection R as <-.
  cbn [Summary.temp_degC Summary.time_mins Summary.most_energy].
  assert (G : get energies (Dish.dish row) =
              Some (energy_of temperature_lookup duration_lookup row)).
  { apply calculate_energy_flags_inv in H. destruct H as [-> _].
    exact (get_fill_last Dish.dish
             (energy_of temperature_lookup duration_lookup)
             before row after [] N). }
  split; [exact G|].
  apply calculate_energy_flags_inv in H.
  destruct H as [_ [first [rest [_ ->]]]].
  unfold get_default.
  rewrite (get_map_values (fun e => Num.eq e (max_from first rest))).
  now rewrite G.
Qed.

Lemma formula_cost_ext (py_eval' : string -> result num) formula ingredients :
  py_eval' (substitute formula ingredients) =
  py_eval (substitute formula ingredients) ->
  formula_cost py_eval' formula ingredients =
  formula_cost py_eval formula ingredients.
Proof.
  intros H. rewrite !formula_cost_eq. unfold cost_outcome. cbv zeta.
  now rewrite H.
Qed.

(** The second loop reads [eval] on the texts of the sheet only. *)
Lemma cost_loop_ext (py_eval' : string -> result num) dish_ingredients dish_df :
  (forall row, In row dish_df ->
     py_eval' (dish_text dish_ingredients row) =
     py_eval (dish_text dish_ingredients row)) ->
  forall recipe_costs,
  cost_loop py_eval' dish_ingredients dish_df recipe_costs =
  cost_loop py_eval dish_ingredients dish_df recipe_costs.
Proof.
  induction dish_df as [|row rows IH]; intros H rc; [reflexivity|].
  cbn [cost_loop].
  rewrite (formula_cost_ext py_eval') by (apply (H row); now left).
  apply bind_ext. intros c. apply IH. intros r Hr. apply H. now right.
Qed.

Lemma energy_flags_nonempty dish_df ef :
  calculate_energy_flags temperature_lookup duration_lookup dish_df = Ok ef ->
  dish_df <> [].
Proof. intros H ->. discriminate H. Qed.

(** The run stops where the cost pass or the energy pass stops. *)
Lemma process_raise_costs dry_run dish_df dish_ingredient_df
  ingredient_cost_df log e :
  calculate_recipe_costs py_eval dish_df dish_ingredient_df ingredient_cost_df
  = (log, Raise e) ->
  process py_eval temperature_lookup duration_lookup format_number dry_run
    dish_df dish_ingredient_df ingredient_cost_df = (log, Raise e).
Proof. intros H. unfold process. now rewrite H. Qed.

Lemma process_raise_energy dry_run dish_df dish_ingredient_df
  ingredient_cost_df log recipe_costs e :
  calculate_recipe_costs py_eval dish_df dish_ingredient_df ingredient_cost_df
  = (log, Ok recipe_costs) ->
  calculate_energy_flags temperature_lookup duration_lookup dish_df = Raise e ->
  process py_eval temperature_lookup duration_lookup format_number dry_run
    dish_df dish_ingredient_df ingredient_cost_df = (log, Raise e).
Proof.
  intros H E. unfold process. rewrite H, E. cbn. now rewrite app_nil_r.
Qed.

(** The run once both passes have returned, for either value of
    [dry_run]. *)
Lemma process_eq dry_run dish_df dish_ingredient_df ingredient_cost_df
  log recipe_costs energies flags :
  calculate_recipe_costs py_eval dish_df dish_ingredient_df ingredient_cost_df
  = (log, Ok recipe_costs) ->
  calculate_energy_flags temperature_lookup duration_lookup dish_df
  = Ok (energies, flags) ->
  exists summary_df lines,
    generate_summary temperature_lookup duration_lookup recipe_costs flags
      dish_df = Ok summary_df /\
    List.length summary_df = List.length dish_df /\
    List.length lines = List.length dish_df /\
    map Summary.dish summary_df = map Dish.dish dish_df /\
    process py_eval temperature_lookup duration_lookup format_number dry_run
      dish_df dish_ingredient_df ingredient_cost_df =
    (log,
     Ok (summary_df, if dry_run then None else Some (csv_header :: lines))).
Proof.
  intros Hrc Hef. pose proof (energy_flags_nonempty _ _ Hef) as Hne.
  unfold process. rewrite Hrc, Hef. cbn [Mon.lift Mon.bind snd].
  destruct (summary_has_one_row_per_dish temperature_lookup duration_lookup
              format_number recipe_costs flags dish_df)
    as [summary_df [Hs [Hl [Hd Hcsv]]]].
  destruct (Hcsv Hne) as [lines [Hw [Hll _]]].
  exists summary_df, lines.
  split; [exact Hs|]. split; [exact Hl|]. split; [exact Hll|].
  split; [exact Hd|].
  rewrite Hs. cbn [Mon.lift Mon.bind].
  destruct dry_run.
  - cbn [save_to_csv Mon.bind Mon.ret]. now rewrite !app_nil_r.
  - rewrite Hw. cbn [Mon.bind Mon.ret]. now rewrite !app_nil_r.
Qed.


(** X21.  A dry run does all the work of a real run but the writing.
    When [eval] gives the dry run what it gives the real run on the texts
    of the sheet, both runs hand the same texts to [eval] in the same
    order, they stop on the same exception or return the same summary,
    and the dry run writes no file. *)
Theorem dry_run_only_skips_the_file (py_eval_dry : string -> result num)
  dish_df dish_ingredient_df ingredient_cost_df :
  (forall row, In row dish_df ->
     py_eval_dry
       (dish_text
          (build_dish_ingredients (make_cost_lookup ingredient_cost_df)
             dish_ingredient_df) row) =
     py_eval
       (dish_text
          (build_dish_ingredients (make_cost_lookup ingredient_cost_df)
             dish_ingredient_df) row)) ->
  let real :=
    process py_eval temperature_lookup duration_lookup format_number false
      dish_df dish_ingredient_df ingredient_cost_df in
  let dry :=
    process py_eval_dry temperature_lookup duration_lookup format_number true
      dish_df dish_ingredient_df ingredient_cost_df in
  Mon.evaluated dry = Mon.evaluated real /\
  Mon.outcome dry =
  match Mon.outcome real with
  | Ok (summary_df, _) => Ok (summary_df, None)
  | Raise e => Raise e
  end.
Proof.
  intros H. cbv zeta.
  unfold process at 1 3.
  assert (E : calculate_recipe_costs py_eval_dry dish_df dish_ingredient_df
                ingredient_cost_df =
              calculate_recipe_costs py_eval dish_df dish_ingredient_df
                ingredient_cost_df).
  { unfold calculate_recipe_costs. cbv zeta. now apply cost_loop_ext. }
  rewrite E.
  destruct (calculate_recipe_costs py_eval dish_df dish_ingredient_df
              ingredient_cost_df) as [log [rc|e]] eqn:Hrc;
    [|rewrite (process_raise_costs false _ _ _ log e Hrc); split; reflexivity].
  destruct (calculate_energy_flags temperature_lookup duration_lookup dish_df)
    as [[energies flags]|e] eqn:Hef.
  - destruct (process_eq false dish_df dish_ingredient_df ingredient_cost_df
                log rc energies flags Hrc Hef)
      as [s1 [l1 [G1 [_ [_ [_ P1]]]]]].
    rewrite P1. cbn [Mon.lift Mon.bind snd]. rewrite G1.
    cbn [Mon.lift Mon.bind save_to_csv Mon.ret Mon.evaluated Mon.outcome fst snd].
    now rewrite !app_nil_r.
  - rewrite (process_raise_energy false _ _ _ log rc e Hrc Hef).
    cbn. now rewrite app_nil_r.
Qed.

(** X22.  [--dry-run] wins over [--execute]: with it [main] runs
    [process], and whatever the run returns, no file is written. *)
Theorem main_dry_run_writes_nothing execute
  dish_df dish_ingredient_df ingredient_cost_df :
  exists run,
    main py_eval temperature_lookup duration_lookup format_number execute true
      dish_df dish_ingredient_df ingredient_cost_df = Some run /\
    forall summary_df written,
      Mon.outcome run = Ok (summary_df, written) -> written = None.
Proof.
  unfold main. rewrite orb_true_r. eexists. split; [reflexivity|].
  intros summary_df written H.
  destruct (calculate_recipe_costs py_eval dish_df dish_ingredient_df
              ingredient_cost_df) as [log [rc|e]] eqn:Hrc;
    [|rewrite (process_raise_costs true _ _ _ log e Hrc) in H; discriminate H].
  destruct (calculate_energy_flags temperature_lookup duration_lookup dish_df)
    as [[energies flags]|e] eqn:Hef;
    [|rewrite (process_raise_energy true _ _ _ log rc e Hrc Hef) in H;
      discriminate H].
  destruct (process_eq true dish_df dish_ingredient_df ingredient_cost_df
              log rc energies flags Hrc Hef) as [s [l [_ [_ [_ [_ E]]]]]].
  rewrite E in H. cbn in H. congruence.
Qed.

(** X23.  The file written for a sheet with at least one dish: under the
    header, one line of five cells per dish row, in sheet order; a dish
    without a recorded cost, an unresolved temperature and an unknown
    duration are each written as [NaN]; the last cell is [True] or
    [False]. *)
Theorem csv_lines_mark_undefined recipe_costs most_energy_flags dish_df :
  dish_df <> [] ->
  exists lines,
    save_to_csv temperature_lookup duration_lookup format_number false
      recipe_costs most_energy_flags dish_df = Ok (Some (csv_header :: lines)) /\
    List.length lines = List.length dish_df /\
    forall i row,
      nth_error dish_df i = Some row ->
      exists cost temp time flag,
        nth_error lines i = Some [Dish.dish row; cost; temp; time; flag] /\
        (get recipe_costs (Dish.dish row) = None -> cost = "NaN") /\
        (temperature_of temperature_lookup (Dish.temperature row) = NaN ->
         temp = "NaN") /\
        (duration_of duration_lookup (Dish.duration row) = NaN ->
         time = "NaN") /\
        (flag = "True" \/ flag = "False").
Proof.
  intros Hne. unfold save_to_csv. rewrite generate_summary_eq.
  cbn [Res.bind].
  rewrite round_cost_column_eq
    by (destruct dish_df; [contradiction | discriminate]).
  cbn [Res.bind Res.try_except to_csv].
  eexists. split; [reflexivity|].
  split; [now rewrite !length_map|].
  intros i row Hi. rewrite !nth_error_map, Hi. cbn [option_map].
  do 4 eexists. split; [reflexivity|].
  cbn [Summary.recipe_cash_cost Summary.temp_degC Summary.time_mins
       Summary.most_energy].
  split; [|split; [|split]].
  - intros G. unfold get_default. now rewrite G.
  - now intros ->.
  - now intros ->.
  - unfold csv_bool. destruct (get_default most_energy_flags _ _); auto.
Qed.

End RunExtras.

(* ================================================================= *)
(** * The further theorems at work on concrete inputs *)

Section ExtraInstances.

Local Open Scope Z_scope.

Lemma low_heat_returns_table_key :
  find_match "LOW heat" Sample.temperature_lookup = Some "low" /\
  In "low" (keys Sample.temperature_lookup) /\
  exists v, Res.index Sample.temperature_lookup "low" = Ok v.
Proof.
  split; [reflexivity|].
  exact (find_match_returns_table_key "LOW heat" Sample.temperature_lookup
           "low" eq_refl).
Defined.

Lemma low_heat_match_is_stable :
  find_match "LOW heat" Sample.temperature_lookup = Some "low" /\
  find_match "low" Sample.temperature_lookup = Some "low".
Proof.
  split; [reflexivity|].
  exact (find_match_idempotent "LOW heat" Sample.temperature_lookup "low"
           eq_refl).
Defined.

Lemma low_heat_in_any_case :
  find_match "LOW heat" Sample.temperature_lookup =
  find_match "Low Heat" Sample.temperature_lookup.
Proof.
  assert (H : ~ In "LOW heat" (keys Sample.temperature_lookup)).
  { simpl. intros [H|[H|[]]]; discriminate H. }
  assert (H' : ~ In "Low Heat" (keys Sample.temperature_lookup)).
  { simpl. intros [H'|[H'|[]]]; discriminate H'. }
  exact (find_match_ignores_case "LOW heat" "Low Heat"
           Sample.temperature_lookup H H' eq_refl).
Defined.

Lemma upper_case_key_is_found :
  exists k, find_match "HIGH" Sample.temperature_lookup = Some k /\
            matches "HIGH" k.
Proof.
  assert (H : ~ In "HIGH" (keys Sample.temperature_lookup)).
  { simpl. intros [H|[H|[]]]; discriminate H. }
  assert (E : exists k, In k (keys Sample.temperature_lookup) /\
                        lower k = lower "HIGH").
  { exists "high". split; [simpl; right; now left | reflexivity]. }
  exact (find_match_finds_other_case "HIGH" Sample.temperature_lookup H E).
Defined.


Lemma unused_B_leaves_formula :
  substitute "A+1" [("B", NaN)] = "A+1".
Proof.
  assert (H : forall var cost, In (var, cost) [("B", NaN)] ->
                var <> "" /\ ~ substring var "A+1").
  { intros var cost [E|[]]. injection E as <- <-. split; [discriminate|].
    intros S. apply contains_iff in S. discriminate S. }
  exact (unused_variables_leave_formula "A+1" [("B", NaN)] H).
Defined.

Lemma used_B_without_cost :
  formula_cost Sample.table_eval "A+B" ([("A", Int 2)] ++ [("B", NaN)]) =
  ([], Ok NaN).
Proof.
  assert (S : substring "B" (substitute "A+B" [("A", Int 2)])).
  { apply contains_iff. reflexivity. }
  exact (missing_cost_of_used_variable Sample.table_eval "A+B"
           [("A", Int 2)] "B" S).
Defined.

Lemma soup_mapping_in_sheet_order :
  get_default
    (build_dish_ingredients (make_cost_lookup Sample.ingredient_costs)
       Sample.dish_ingredients) "soup" [] =
  [("A", Int 2); ("B", NaN)].
Proof.
  assert (N : NoDup ["A"; "B"]%string).
  { constructor; [simpl; intros [H|[]]; discriminate H|].
    constructor; [intros []|constructor]. }
  exact (mapping_follows_sheet_order
           (make_cost_lookup Sample.ingredient_costs)
           Sample.dish_ingredients "soup" N).
Defined.

Lemma low_temperature_is_exact :
  get_temperature Sample.temperature_lookup "low" = Ok (Int 100).
Proof.
  assert (ne : "low" <> "") by discriminate.
  exact (get_temperature_exact Sample.temperature_lookup "low" (Int 100)
           eq_refl ne).
Defined.

Lemma empty_key_match_is_nan :
  find_match "grill" [("", Int 5); ("low", Int 100)] = Some "" /\
  get_temperature [("", Int 5); ("low", Int 100)] "grill" = Ok NaN.
Proof.
  split; [reflexivity|].
  exact (get_temperature_empty_match [("", Int 5); ("low", Int 100)] "grill"
           eq_refl).
Defined.


Lemma sample_energy_keys :
  keys [("soup", false); ("bread", false); ("roast", false)] =
  keys [("soup", NaN); ("bread", Int 1000); ("roast", Int 4000)] /\
  NoDup (keys [("soup", NaN); ("bread", Int 1000); ("roast", Int 4000)]) /\
  forall d,
    In d (keys [("soup", NaN); ("bread", Int 1000); ("roast", Int 4000)]) <->
    In d (map Dish.dish Sample.dishes).
Proof.
  exact (energies_and_flags_share_keys Sample.temperature_lookup
           Sample.duration_lookup Sample.dishes
           [("soup", NaN); ("bread", Int 1000); ("roast", Int 4000)]
           [("soup", false); ("bread", false); ("roast", false)] eq_refl).
Defined.

Lemma roast_energy :
  get [("soup", NaN); ("bread", Int 1000); ("roast", Int 4000)] "roast" =
  Some (Int 4000).
Proof.
  exact (energy_of_last_row Sample.temperature_lookup Sample.duration_lookup
           [ Dish.Build "soup" "A+B" "low" "overnight";
             Dish.Build "bread" "A+1" "LOW heat" "short" ]
           (Dish.Build "roast" "1/0" "high" "long") []
           [("soup", NaN); ("bread", Int 1000); ("roast", Int 4000)]
           [("soup", false); ("bread", false); ("roast", false)]
           (fun x => x) eq_refl).
Defined.

Lemma reversed_sample_flags_are_right :
  (forall d e,
      get [("roast", Int 4000); ("bread", Int 1000); ("soup", NaN)] d = Some e ->
      get [("roast", true); ("bread", false); ("soup", false)] d =
      Some (is_greatest [Int 4000; Int 1000; NaN] e)) /\
  exists d, get [("roast", true); ("bread", false); ("soup", false)] d = Some true.
Proof.
  exact (flags_right_when_first_energy_defined Sample.temperature_lookup
           Sample.duration_lookup (rev Sample.dishes)
           [("roast", Int 4000); ("bread", Int 1000); ("soup", NaN)]
           [("roast", true); ("bread", false); ("soup", false)]
           4000 [Int 1000; NaN] eq_refl eq_refl).
Defined.

Lemma sample_has_no_flag :
  In "roast" (keys [("soup", NaN); ("bread", Int 1000); ("roast", Int 4000)]) /\
  get [("soup", false); ("bread", false); ("roast", false)] "roast" = Some false.
Proof.
  assert (I : In "roast"
                (keys [("soup", NaN); ("bread", Int 1000); ("roast", Int 4000)])).
  { simpl. right. right. now left. }
  split; [exact I|].
  exact (no_flag_when_first_energy_nan Sample.temperature_lookup
           Sample.duration_lookup Sample.dishes
           [("soup", NaN); ("bread", Int 1000); ("roast", Int 4000)]
           [("soup", false); ("bread", false); ("roast", false)]
           [Int 1000; Int 4000] eq_refl eq_refl "roast" I).
Defined.

Lemma roast_summary_agrees :
  get [("roast", Int 4000); ("bread", Int 1000); ("soup", NaN)] "roast" =
  Some (Num.mul (Int 200) (Int 20)) /\
  get [("roast", true); ("bread", false); ("soup", false)] "roast" = Some true.
Proof.
  assert (N : ~ In "roast"
                (map Dish.dish
                   [ Dish.Build "bread" "A+1" "LOW heat" "short";
                     Dish.Build "soup" "A+B" "low" "overnight" ])).
  { simpl. intros [H|[H|[]]]; discriminate H. }
  exact (summary_agrees_with_energies Sample.temperature_lookup
           Sample.duration_lookup []
           (Dish.Build "roast" "1/0" "high" "long")
           [ Dish.Build "bread" "A+1" "LOW heat" "short";
             Dish.Build "soup" "A+B" "low" "overnight" ]
           [("roast", Int 4000); ("bread", Int 1000); ("soup", NaN)]
           [("roast", true); ("bread", false); ("soup", false)]
           []
           (Summary.Build "roast" NaN (Int 200) (Int 20) true)
           N eq_refl eq_refl).
Defined.


Lemma sample_dry_run :
  Mon.evaluated
    (process Sample.dry_eval Sample.temperature_lookup
       Sample.duration_lookup Sample.decimal true Sample.dishes
       Sample.dish_ingredients Sample.ingredient_costs) =
  Mon.evaluated
    (process Sample.table_eval Sample.temperature_lookup
       Sample.duration_lookup Sample.decimal false Sample.dishes
       Sample.dish_ingredients Sample.ingredient_costs) /\
  Mon.outcome
    (process Sample.dry_eval Sample.temperature_lookup
       Sample.duration_lookup Sample.decimal true Sample.dishes
       Sample.dish_ingredients Sample.ingredient_costs) =
  match
    Mon.outcome
      (process Sample.table_eval Sample.temperature_lookup
         Sample.duration_lookup Sample.decimal false Sample.dishes
         Sample.dish_ingredients Sample.ingredient_costs)
  with
  | Ok (summary_df, _) => Ok (summary_df, None)
  | Raise e => Raise e
  end.
Proof.
  assert (A : forall row, In row Sample.dishes ->
                Sample.dry_eval
                  (dish_text
                     (build_dish_ingredients
                        (make_cost_lookup Sample.ingredient_costs)
                        Sample.dish_ingredients) row) =
                Sample.table_eval
                  (dish_text
                     (build_dish_ingredients
                        (make_cost_lookup Sample.ingredient_costs)
                        Sample.dish_ingredients) row)).
  { intros row [<-|[<-|[<-|[]]]]; reflexivity. }
  exact (dry_run_only_skips_the_file Sample.table_eval
           Sample.temperature_lookup Sample.duration_lookup Sample.decimal
           Sample.dry_eval Sample.dishes Sample.dish_ingredients
           Sample.ingredient_costs A).
Defined.

Lemma sample_csv_lines :
  exists lines,
    save_to_csv Sample.temperature_lookup Sample.duration_lookup
      Sample.decimal false [("bread", Int 3)] [] Sample.dishes
    = Ok (Some (csv_header :: lines)) /\
    List.length lines = List.length Sample.dishes.
Proof.
  assert (N : Sample.dishes <> []) by discriminate.
  destruct (csv_lines_mark_undefined Sample.temperature_lookup
              Sample.duration_lookup Sample.decimal [("bread", Int 3)] []
              Sample.dishes N) as [lines [H1 [H2 _]]].
  exists lines. split; [exact H1 | exact H2].
Defined.

End ExtraInstances.
